(** * TUN/TAP interfaces of Scapy: a shallow embedding of
      [scapy/layers/tuntap.py] and the properties of its channel.

    The module opens a tun or tap device (a character device on Linux, a
    control socket or a device file on BSD and Darwin), and reads and writes
    frames through it, stripping or prepending the small packet-information
    header some kernels put in front of every frame.

    Python objects become records, exceptions become a [result] type, and the
    effects of the module (warnings, log records, system calls, reads of the
    clock) are threaded through a [World] whose trace lists them in program
    order. *)

From Stdlib Require Import ZArith List String Ascii Bool Lia.
From Stdlib Require Import Init.Byte.
Import ListNotations.

Local Open Scope string_scope.
Local Open Scope list_scope.
Local Open Scope Z_scope.

(** ** Byte strings *)

Definition bytes := list byte.

Definition Z_of_byte (b : byte) : Z := Z.of_N (Byte.to_N b).

Definition byte_of_Z (z : Z) : byte :=
  match Byte.of_N (Z.to_N (z mod 256)) with
  | Some b => b
  | None => x00
  end.

(** A bytes literal: [bstr "tun0"] is [b"tun0"]. *)
Definition bstr (s : string) : bytes := list_byte_of_string s.

(** [len(s)] *)
Definition len (s : bytes) : Z := Z.of_nat (List.length s).

(** [s.startswith(prefix)] *)
Fixpoint startswith (s prefix : bytes) : bool :=
  match prefix, s with
  | [], _ => true
  | _ :: _, [] => false
  | p :: prefix', c :: s' => Byte.eqb p c && startswith s' prefix'
  end.

(** [s[:n]] and [s[n:]] for an index [n >= 0] (the module only slices with
    non-negative constants). *)
Definition slice_to (s : bytes) (n : Z) : bytes := firstn (Z.to_nat n) s.
Definition slice_from (s : bytes) (n : Z) : bytes := skipn (Z.to_nat n) s.

(** ** Exceptions *)

(** The exceptions the module raises or lets through.  A message is kept as
    its format string and the arguments formatted into it. *)
Inductive exn : Type :=
| ValueError (msg : string) (args : list bytes)
| NotImplementedError (msg : string)
| OSError (errno : Z)
| UnboundLocalError (name : string)
| UnicodeDecodeError
| struct_error.

Inductive result (A : Type) : Type :=
| Ok (a : A)
| Raise (e : exn).
Arguments Ok {A} a.
Arguments Raise {A} e.

(** [except socket.error]: [socket.error] is an alias of [OSError]. *)
Definition is_socket_error (e : exn) : bool :=
  match e with
  | OSError _ => true
  | _ => false
  end.

(** The error kinds of the specification, as the exceptions that carry them. *)
Definition AmbiguousModeError (iface : bytes) : exn :=
  ValueError
    "Could not determine interface type for %r; set `mode_tun` explicitly."
    [iface].
Definition InvalidNameError : exn :=
  ValueError
    "Interface names must start with `tun`, `utun`, or `tap` on BSD and Darwin"
    [].
Definition UnsupportedPlatformError : exn :=
  NotImplementedError "TunTapInterface is not supported on this platform!".
Definition UnsupportedAddressFamilyError : exn :=
  NotImplementedError "Non-IP address families are not supported".
(** What a Python file object raises when it is used after [close()]. *)
Definition ClosedChannelError : exn :=
  ValueError "I/O operation on closed file." [].

(** ** Constants of the module *)

(* Linux-specific defines (/usr/include/linux/if_tun.h) *)
Definition LINUX_TUNSETIFF : Z := 0x400454ca.
Definition LINUX_IFF_TUN : Z := 0x0001.
Definition LINUX_IFF_TAP : Z := 0x0002.
Definition LINUX_IFF_NO_PI : Z := 0x1000.
Definition LINUX_IFNAMSIZ : Z := 16.

(* MacOS-specific defines *)
Definition DARWIN_CTLIOCGINFO : Z := 0xc0644e03.
Definition DARWIN_UTUN_CONTROL_NAME : bytes := bstr "com.apple.net.utun_control".
Definition DARWIN_MAX_KCTL_NAME : Z := 96.

(** ** Fixed-size fields *)

Inductive byteorder : Type := BigEndian | LittleEndian.

(** The [n] low bytes of [v], least significant first. *)
Fixpoint le_bytes (n : nat) (v : Z) : bytes :=
  match n with
  | O => []
  | S n' => byte_of_Z v :: le_bytes n' (v / 256)
  end.

(** Modelled from the spec: the field codecs of [scapy.fields] ([Field],
    [StrFixedLenField], [BitField], [FlagsField], [XShortEnumField],
    [IntField]) are not part of this module.  A scalar field of [n] bytes is
    written in the byte order it is declared with.  A value that does not
    fit in [n] bytes has no serialization; how the codec reports it is not
    said, and nothing below depends on the exception put here. *)
Definition struct_pack (o : byteorder) (n : nat) (v : Z) : result bytes :=
  if (0 <=? v) && (v <? 256 ^ Z.of_nat n) then
    Ok (match o with
        | LittleEndian => le_bytes n v
        | BigEndian => rev (le_bytes n v)
        end)
  else Raise struct_error.

(** The value of a byte string read least significant byte first. *)
Fixpoint le_value (s : bytes) : Z :=
  match s with
  | [] => 0
  | c :: s' => Z_of_byte c + 256 * le_value s'
  end.

(** Modelled from the spec: a scalar field is read back from exactly its
    bytes, in the byte order it is declared with ([struct.unpack]). *)
Definition struct_unpack (o : byteorder) (s : bytes) : Z :=
  match o with
  | LittleEndian => le_value s
  | BigEndian => le_value (rev s)
  end.

(** Modelled from the spec: [StrFixedLenField(name, default, n)] serializes
    to exactly [n] bytes, the value cut at [n] bytes and padded with zero
    bytes ([struct.pack("%is" % n, val)]). *)
Definition StrFixedLenField_build (n : Z) (val : bytes) : bytes :=
  slice_to val n ++ repeat x00 (Z.to_nat n - List.length val).

(** ** Classes *)

(** The classes the module names, and any other by its base class. *)
Inductive PyClass : Type :=
| object
| Packet
| IP
| IPv6
| IPv46
| Ether
| Raw
| TunPacketInfo
| LinuxTunIfReq
| MacOSTunIfReq
| LinuxTunPacketInfo
| MacOSUtunPacketInfo
| Subclass (name : string) (base : PyClass).

Lemma PyClass_eq_dec (c d : PyClass) : {c = d} + {c <> d}.
Proof. decide equality. apply string_dec. Defined.

Definition class_eqb (c d : PyClass) : bool :=
  if PyClass_eq_dec c d then true else false.

(** [issubclass(c, d)], along the [class C(Base)] headers of the module;
    [IPv46] is declared over [IP] and [IPv6] in [scapy.layers.inet6], and the
    imported layers are [Packet]s. *)
Fixpoint issubclass (c d : PyClass) : bool :=
  class_eqb c d ||
  match c with
  | object => false
  | Packet => class_eqb d object
  | LinuxTunPacketInfo =>
      class_eqb d TunPacketInfo || class_eqb d Packet || class_eqb d object
  | IPv46 =>
      class_eqb d IP || class_eqb d IPv6 || class_eqb d Packet ||
      class_eqb d object
  | Subclass _ base => issubclass base d
  | _ => class_eqb d Packet || class_eqb d object
  end.

(** ** Objects passed to [send] *)

Definition timestamp := Z.

(** A Python object as [send] sees it: its class, its [sent_time] attribute
    when it has one ([Some None] is an attribute holding [None]), and the
    rest of it, which only the packet library reads. *)
Record Frame : Type := mkFrame {
  frame_class : PyClass;
  sent_time : option (option timestamp);
  frame_data : bytes
}.

(** [isinstance(x, c)] *)
Definition isinstance (x : Frame) (c : PyClass) : bool :=
  issubclass (frame_class x) c.

(** [hasattr(x, "sent_time")] *)
Definition hasattr_sent_time (x : Frame) : bool :=
  match sent_time x with
  | Some _ => true
  | None => false
  end.

(** [x.sent_time = t] *)
Definition set_sent_time (x : Frame) (t : timestamp) : Frame :=
  mkFrame (frame_class x) (Some (Some t)) (frame_data x).

(** ** Effects *)

(** What the module does to the outside, in program order. *)
Inductive Event : Type :=
| EvWarning (msg : string)                (* scapy.error.warning(msg) *)
| EvLogError (fmt : string) (arg : string) (* log_runtime.error(fmt, arg, exc_info=True) *)
| EvOpen (path : bytes)                   (* open(path, "r+b", buffering=0) *)
| EvIoctl (request : Z) (arg : bytes)     (* ioctl(fd, request, arg) *)
| EvSocket                                (* socket.socket(PF_SYSTEM, SOCK_DGRAM, SYSPROTO_CONTROL) *)
| EvConnect (ctl_id unit_number : Z)      (* rawSocket.connect((ctl_id, unit_number)) *)
| EvMakefile                              (* rawSocket.makefile(mode="rwb", buffering=0) *)
| EvRead (n : Z)                          (* ins.read(n) *)
| EvWrite (s : bytes)                     (* outs.write(s) *)
| EvFlush                                 (* outs.flush() *)
| EvClose.                                (* the handle is released *)

Record World : Type := mkWorld {
  trace : list Event;     (* oldest first *)
  ticks : nat             (* calls of time.time() so far *)
}.

Definition emit (w : World) (e : Event) : World :=
  mkWorld (trace w ++ [e]) (ticks w).

(** An open duplex byte stream: a Python file object over a device or a
    socket.  [pending] is what the device has yet to deliver. *)
Record File : Type := mkFile {
  file_closed : bool;
  pending : bytes
}.

(** [f.read(n)]: up to [n] bytes, everything for a negative [n]; a closed
    file object raises [ValueError] without touching the device. *)
Definition file_read (w : World) (f : File) (n : Z)
  : World * File * result bytes :=
  if file_closed f then (w, f, Raise ClosedChannelError)
  else if n <? 0 then
    (emit w (EvRead n), mkFile false [], Ok (pending f))
  else
    (emit w (EvRead n), mkFile false (slice_from (pending f) n),
     Ok (slice_to (pending f) n)).

(** ** Packet-information headers *)

(** [LinuxTunPacketInfo]: [flags] then [type]. *)
Record tun_pi : Type := mk_tun_pi {
  flags : Z;
  type : Z
}.

(** [MacOSUtunPacketInfo]: [addr_family]. *)
Record utun_pi : Type := mk_utun_pi {
  addr_family : Z
}.

(** ** The channel object *)

(** The attributes of a [TunTapInterface].  [SimpleSocket.__init__(sock)]
    binds [ins] and [outs] to the one file object, so the record keeps it
    once, as [sock]. *)
Record TunTapInterface : Type := mkTunTapInterface {
  iface : bytes;
  mode_tun : bool;
  strip_packet_info : bool;
  mtu_overhead : Z;
  kernel_packet_class : PyClass;
  closed : bool;
  default_read_size : Z;
  sock : File
}.

Definition set_sock (self : TunTapInterface) (f : File) : TunTapInterface :=
  mkTunTapInterface (iface self) (mode_tun self) (strip_packet_info self)
    (mtu_overhead self) (kernel_packet_class self) (closed self)
    (default_read_size self) f.

(** ** Interface numbers: [re.match(r"([a-z]+)([0-9]+)", name, re.I)] *)

Definition in_range (c : byte) (lo hi : Z) : bool :=
  (lo <=? Z_of_byte c) && (Z_of_byte c <=? hi).

(** [bytes.decode("utf-8")] succeeds on well-formed UTF-8 only. *)
Fixpoint utf8_valid (s : bytes) : bool :=
  match s with
  | [] => true
  | c1 :: s1 =>
    if in_range c1 0x00 0x7f then utf8_valid s1 else
    match s1 with
    | [] => false
    | c2 :: s2 =>
      if in_range c1 0xc2 0xdf then in_range c2 0x80 0xbf && utf8_valid s2 else
      match s2 with
      | [] => false
      | c3 :: s3 =>
        if in_range c1 0xe0 0xef then
          (if in_range c1 0xe0 0xe0 then in_range c2 0xa0 0xbf
           else if in_range c1 0xed 0xed then in_range c2 0x80 0x9f
           else in_range c2 0x80 0xbf)
          && in_range c3 0x80 0xbf && utf8_valid s3
        else
        match s3 with
        | [] => false
        | c4 :: s4 =>
          in_range c1 0xf0 0xf4
          && (if in_range c1 0xf0 0xf0 then in_range c2 0x90 0xbf
              else if in_range c1 0xf4 0xf4 then in_range c2 0x80 0x8f
              else in_range c2 0x80 0xbf)
          && in_range c3 0x80 0xbf && in_range c4 0x80 0xbf && utf8_valid s4
        end
      end
    end
  end.

Definition is_ascii_letter (c : byte) : bool :=
  in_range c 65 90 || in_range c 97 122.

Definition is_digit (c : byte) : bool := in_range c 48 57.

(** What is left of [s] after the longest run of [[a-z]] under [re.I]: the
    ASCII letters and, in a [str] pattern, the four letters that case-fold
    into them (U+0130, U+0131, U+017F, U+212A), here in their UTF-8 form. *)
Fixpoint skip_letters (s : bytes) : bytes :=
  match s with
  | [] => []
  | c1 :: s1 =>
    if is_ascii_letter c1 then skip_letters s1 else
    match s1 with
    | [] => s
    | c2 :: s2 =>
      if (in_range c1 0xc4 0xc4 && in_range c2 0xb0 0xb1)
         || (in_range c1 0xc5 0xc5 && in_range c2 0xbf 0xbf)
      then skip_letters s2 else
      match s2 with
      | [] => s
      | c3 :: s3 =>
        if in_range c1 0xe2 0xe2 && in_range c2 0x84 0x84
           && in_range c3 0xaa 0xaa
        then skip_letters s3 else s
      end
    end
  end.

Fixpoint take_digits (s : bytes) : bytes :=
  match s with
  | [] => []
  | c :: s' => if is_digit c then c :: take_digits s' else []
  end.

(** [int(digits)] *)
Definition int_of_digits (ds : bytes) : Z :=
  fold_left (fun acc c => 10 * acc + (Z_of_byte c - 48)) ds 0.

(** [int(match.group(2))] when the pattern matches at the start of [s]. *)
Definition re_match_number (s : bytes) : option Z :=
  let rest := skip_letters s in
  if len rest =? len s then None
  else match take_digits rest with
       | [] => None
       | ds => Some (int_of_digits ds)
       end.

(** ** A sample platform

    Concrete constants, a small packet library and a well-behaved operating
    system, to run the module on. *)

Module Sample.

Definition AF_INET : Z := 2.
Definition AF_INET6 : Z := 30.

Definition Ether_payload_guess : list (Z * PyClass) :=
  [(0x0800, IP); (0x86dd, IPv6)].

Definition library_guess_payload_class (c : PyClass) (hdr : bytes)
  : result PyClass := Raise struct_error.

(** The bytes a default instance of a layer puts in front of its payload. *)
Definition default_header (c : PyClass) : bytes :=
  match c with
  | IP => [x45; x00; x00; x14; x00; x01; x00; x00; x40; x00;
           x7c; xe7; x7f; x00; x00; x01; x7f; x00; x00; x01]
  | LinuxTunPacketInfo => [x00; x00; x90; x00]
  | MacOSUtunPacketInfo => [x00; x00; x00; x02]
  | _ => []
  end.

Definition raw (x : Frame) : bytes := frame_data x.

Definition div (c : PyClass) (x : Frame) : Frame :=
  mkFrame c (Some None) (default_header c ++ frame_data x).

Definition clock (n : nat) : timestamp := 1700000000 + Z.of_nat n.

(** A device that has one IPv4 frame to deliver behind a Linux header. *)
Definition device_input : bytes :=
  [x00; x00; x08; x00; x45; x00; x00; x14].

Definition os_open (path : bytes) : result File :=
  Ok (mkFile false device_input).
Definition os_ioctl (request : Z) (arg : bytes) : result bytes := Ok arg.
Definition os_socket : result File := Ok (mkFile false device_input).
Definition os_connect (ctl_id unit_number : Z) : result unit := Ok tt.
Definition os_write (w : World) (s : bytes) : result Z := Ok (len s).

(** A device whose writes fail with [EIO]. *)
Definition os_write_failing (w : World) (s : bytes) : result Z :=
  Raise (OSError 5).

(** A device whose writes are refused by the file object itself. *)
Definition os_write_refusing (w : World) (s : bytes) : result Z :=
  Raise (ValueError "write to closed file" []).

(** A device that cannot be opened ([EACCES]). *)
Definition os_open_denied (path : bytes) : result File :=
  Raise (OSError 13).

Definition w0 : World := mkWorld [] 0.

(** A channel over a Linux tun device, a [utun] control socket and a BSD
    tun device file. *)
Definition linux_tun (input : bytes) : TunTapInterface :=
  mkTunTapInterface (bstr "tun0") true true 4 LinuxTunPacketInfo false 1500
    (mkFile false input).
Definition utun (input : bytes) : TunTapInterface :=
  mkTunTapInterface (bstr "utun3") true true 4 MacOSUtunPacketInfo false
    1500 (mkFile false input).
Definition bsd_tun (input : bytes) : TunTapInterface :=
  mkTunTapInterface (bstr "tun0") true true 0 IPv46 false 1500
    (mkFile false input).

(** An IPv4 packet, some other packet, and a bare byte string. *)
Definition ip_packet : Frame :=
  mkFrame IP (Some None) [x45; x00; x00; x14].
Definition arp_packet : Frame :=
  mkFrame (Subclass "ARP" Packet) (Some None) [x00; x01; x08; x00].
Definition bare_bytes : Frame :=
  mkFrame (Subclass "bytes" object) None [x68; x69].

End Sample.

(** ** The module over its platform *)

Section TunTap.

(** [scapy.consts] and the [socket] module. *)
Variables LINUX BSD BIG_ENDIAN : bool.
Variables AF_INET AF_INET6 : Z.

(** [conf.iface], as the byte string [network_name] and [bytes_encode] make
    of it. *)
Variable conf_iface : bytes.

(** The byte order [scapy.fields.IntField] is declared with. *)
Variable IntField_order : byteorder.

(** The layers bound over [Ether] by their [type] ([bind_layers(Ether, cls,
    type=v)]), first binding first. *)
Variable Ether_payload_guess : list (Z * PyClass).

(** What the packet library answers where this module has no say: the
    payload class of a class defined elsewhere, or of a header cut short. *)
Variable library_guess_payload_class : PyClass -> bytes -> result PyClass.

(** [raw(x)], and [c() / x] for a layer class [c]. *)
Variable raw : Frame -> bytes.
Variable div : PyClass -> Frame -> Frame.

(** [time.time()] at its n-th call. *)
Variable clock : nat -> timestamp.

(** The operating system. *)
Variable os_open : bytes -> result File.
Variable os_ioctl : Z -> bytes -> result bytes.
Variable os_socket : result File.
Variable os_connect : Z -> Z -> result unit.
Variable os_write : World -> bytes -> result Z.

Definition native : byteorder :=
  if BIG_ENDIAN then BigEndian else LittleEndian.

Definition time_time (w : World) : World * timestamp :=
  (mkWorld (trace w) (S (ticks w)), clock (ticks w)).

(** [f.write(s)] *)
Definition file_write (w : World) (f : File) (s : bytes)
  : World * result Z :=
  if file_closed f then (w, Raise ClosedChannelError)
  else (emit w (EvWrite s), os_write w s).

(** [f.flush()] of an unbuffered file object. *)
Definition file_flush (w : World) (f : File) : World * result unit :=
  if file_closed f then (w, Raise ClosedChannelError)
  else (emit w EvFlush, Ok tt).

(** *** Wire structures *)

(** [raw(LinuxTunIfReq(ifrn_name=name, ifru_flags=flags))] *)
Definition LinuxTunIfReq_build (name : bytes) (ifru_flags : Z)
  : result bytes :=
  match struct_pack native 2 ifru_flags with
  | Ok fl => Ok (StrFixedLenField_build 16 name ++ fl)
  | Raise e => Raise e
  end.

(** [raw(MacOSTunIfReq())]: [ctl_id] is a [BitField] of size -32, 32 bits
    least significant byte first. *)
Definition MacOSTunIfReq_build : bytes :=
  le_bytes 4 0
  ++ StrFixedLenField_build DARWIN_MAX_KCTL_NAME DARWIN_UTUN_CONTROL_NAME.

(** [MacOSTunIfReq(s).getfieldval("ctl_id")] *)
Definition MacOSTunIfReq_ctl_id (s : bytes) : Z :=
  struct_unpack LittleEndian (slice_to s 4).

(** [raw(LinuxTunPacketInfo(flags=.., type=..))]: [flags] has size 16 on a
    big-endian host and -16 otherwise, [type] is always in network order. *)
Definition LinuxTunPacketInfo_build (h : tun_pi) : result bytes :=
  match struct_pack native 2 (flags h), struct_pack BigEndian 2 (type h) with
  | Ok fl, Ok ty => Ok (fl ++ ty)
  | Raise e, _ => Raise e
  | _, Raise e => Raise e
  end.

(** [LinuxTunPacketInfo(s)] for the four bytes of a header. *)
Definition LinuxTunPacketInfo_dissect (s : bytes) : tun_pi :=
  mk_tun_pi (struct_unpack native (slice_to s 2))
            (struct_unpack BigEndian (slice_to (slice_from s 2) 2)).

(** [raw(MacOSUtunPacketInfo(addr_family=..))] *)
Definition MacOSUtunPacketInfo_build (h : utun_pi) : result bytes :=
  struct_pack IntField_order 4 (addr_family h).

(** [MacOSUtunPacketInfo(s)] for the four bytes of a header. *)
Definition MacOSUtunPacketInfo_dissect (s : bytes) : utun_pi :=
  mk_utun_pi (struct_unpack IntField_order (slice_to s 4)).

(** *** Payload classes *)

Fixpoint guess_by_type (table : list (Z * PyClass)) (ty : Z) : PyClass :=
  match table with
  | [] => Raw
  | (v, cls) :: table' => if v =? ty then cls else guess_by_type table' ty
  end.

(** Modelled from the spec: [Packet.guess_payload_class], which
    [LinuxTunPacketInfo] inherits, is not part of this module.  The class is
    derived from the header alone: through [aliastypes = [Ether]] the [type]
    field selects the layer bound over [Ether] with that value, and the raw
    layer when there is none. *)
Definition LinuxTunPacketInfo_guess_payload_class (h : tun_pi) : PyClass :=
  guess_by_type Ether_payload_guess (type h).

(** [MacOSUtunPacketInfo.guess_payload_class] *)
Definition MacOSUtunPacketInfo_guess_payload_class (h : utun_pi)
  : result PyClass :=
  if addr_family h =? AF_INET then Ok IP
  else if addr_family h =? AF_INET6 then Ok IPv6
  else Raise UnsupportedAddressFamilyError.

(** [cls(hdr).guess_payload_class(b'')] *)
Definition header_payload_class (cls : PyClass) (hdr : bytes)
  : result PyClass :=
  if len hdr <? 4 then library_guess_payload_class cls hdr
  else match cls with
       | LinuxTunPacketInfo =>
           Ok (LinuxTunPacketInfo_guess_payload_class
                 (LinuxTunPacketInfo_dissect hdr))
       | MacOSUtunPacketInfo =>
           MacOSUtunPacketInfo_guess_payload_class
             (MacOSUtunPacketInfo_dissect hdr)
       | _ => library_guess_payload_class cls hdr
       end.

(** *** [TunTapInterface.recv_raw] *)

Definition recv_raw (w : World) (self : TunTapInterface) (x : option Z)
  : World * TunTapInterface * result (PyClass * bytes * timestamp) :=
  let x := match x with
           | None => default_read_size self
           | Some x => x
           end in
  let x := x + mtu_overhead self in
  match file_read w (sock self) x with
  | (w1, f1, Raise e) => (w1, set_sock self f1, Raise e)
  | (w1, f1, Ok dat) =>
    let '(w2, t) := time_time w1 in
    let self1 := set_sock self f1 in
    let r := (kernel_packet_class self, dat, t) in
    if (mtu_overhead self >? 0) && strip_packet_info self then
      match header_payload_class (kernel_packet_class self)
              (slice_to dat (mtu_overhead self)) with
      | Ok cls => (w2, self1, Ok (cls, slice_from dat (mtu_overhead self), t))
      | Raise e => (w2, self1, Raise e)
      end
    else (w2, self1, Ok r)
  end.

(** *** [TunTapInterface.send] *)

(** The frame as wrapped before serialization (lines 273-279). *)
Definition send_wrap (self : TunTapInterface) (x : Frame) : Frame :=
  if class_eqb (kernel_packet_class self) IPv46 then
    if negb (isinstance x IP || isinstance x IPv6) then div IP x else x
  else if negb (isinstance x (kernel_packet_class self)) then
    div (kernel_packet_class self) x
  else x.

(** The assignment to [x.sent_time] (lines 270-271): the world after the
    clock was read, and the caller's frame object as it is from then on. *)
Definition send_stamp (w : World) (x : Frame) : World * Frame :=
  if hasattr_sent_time x then
    let '(w', t) := time_time w in (w', set_sent_time x t)
  else (w, x).

(** The write under [try] (lines 283-289): the value returned, [None] after
    a logged failure, or the exception that is not caught. *)
Definition send_write (w : World) (self : TunTapInterface) (sx : bytes)
  : World * result (option Z) :=
  let handler (w' : World) (e : exn) : World * result (option Z) :=
    if is_socket_error e then
      (emit w' (EvLogError "%s send" "TunTapInterface"), Ok None)
    else (w', Raise e) in
  match file_write w (sock self) sx with
  | (w1, Raise e) => handler w1 e
  | (w1, Ok r) =>
    match file_flush w1 (sock self) with
    | (w2, Raise e) => handler w2 e
    | (w2, Ok _) => (w2, Ok (Some r))
    end
  end.

(** [send] returns the world, the caller's frame object as the call leaves
    it, and the value returned or the exception raised. *)
Definition send (w : World) (self : TunTapInterface) (x : Frame)
  : World * Frame * result (option Z) :=
  let '(w1, x1) := send_stamp w x in
  let sx := raw (send_wrap self x1) in
  let '(w2, r) := send_write w1 self sx in
  (w2, x1, r).

(** *** [close] *)

(** Modelled from the spec: [close] is inherited from
    [scapy.supersocket.SuperSocket], which is not part of this module.  It
    releases the underlying handle exactly once: a channel already closed is
    left alone, otherwise it is marked closed and its file object is closed. *)
Definition close (w : World) (self : TunTapInterface)
  : World * TunTapInterface :=
  if closed self then (w, self)
  else (emit w EvClose,
        mkTunTapInterface (iface self) (mode_tun self)
          (strip_packet_info self) (mtu_overhead self)
          (kernel_packet_class self) true (default_read_size self)
          (mkFile true (pending (sock self)))).

(** *** [TunTapInterface.__init__] *)

(** Lines 149-159: the mode given, or the mode the name tells. *)
Definition resolve_mode (name : bytes) (mode : option bool) : result bool :=
  match mode with
  | Some m => Ok m
  | None =>
    if startswith name (bstr "tun") || startswith name (bstr "utun") then
      Ok true
    else if startswith name (bstr "tap") then Ok false
    else Raise (AmbiguousModeError name)
  end.

(** Lines 172-208: the character device of Linux and its [TUNSETIFF]. *)
Definition open_linux (w : World) (name : bytes) (mode strip : bool)
  (read_size : Z) : World * result TunTapInterface :=
  let devname := bstr "/dev/net/tun" in
  let kernel_class := if mode then LinuxTunPacketInfo else Ether in
  let overhead := if mode then 4 else 0 in
  let '(w1, strip1) :=
    if mode then (w, strip)
    else (emit w
            (EvWarning "tap devices on Linux do not include packet info!"),
          true) in
  let '(w2, name1) :=
    if len name >? LINUX_IFNAMSIZ then
      (emit w1
         (EvWarning
            "Linux interface names are limited to 16 bytes, truncating!"),
       slice_to name LINUX_IFNAMSIZ)
    else (w1, name) in
  let ifru_flags :=
    if mode then LINUX_IFF_TUN
    else Z.lor LINUX_IFF_TAP LINUX_IFF_NO_PI in
  match LinuxTunIfReq_build name1 ifru_flags with
  | Raise e => (w2, Raise e)
  | Ok tsetiff =>
    let w3 := emit w2 (EvOpen devname) in
    match os_open devname with
    | Raise e => (w3, Raise e)
    | Ok f =>
      let w4 := emit w3 (EvIoctl LINUX_TUNSETIFF tsetiff) in
      match os_ioctl LINUX_TUNSETIFF tsetiff with
      | Raise e => (w4, Raise e)
      | Ok _ =>
        (w4, Ok (mkTunTapInterface name1 mode strip1 overhead kernel_class
                   false read_size f))
      end
    end
  end.

(** Lines 210-233: the control socket of a [utun] interface, or the device
    file of a [tun] or [tap] one, on BSD and Darwin. *)
Definition open_bsd (w : World) (name : bytes) (mode strip : bool)
  (read_size : Z) : World * result TunTapInterface :=
  if negb (startswith name (bstr "tap") || startswith name (bstr "tun")
           || startswith name (bstr "utun")) then
    (w, Raise InvalidNameError)
  else if startswith name (bstr "utun") then
    if negb (utf8_valid name) then (w, Raise UnicodeDecodeError)
    else
      let interfaceNum := re_match_number name in
      let w1 := emit w EvSocket in
      match os_socket with
      | Raise e => (w1, Raise e)
      | Ok rawSocket =>
        let w2 := emit w1 (EvIoctl DARWIN_CTLIOCGINFO MacOSTunIfReq_build) in
        match os_ioctl DARWIN_CTLIOCGINFO MacOSTunIfReq_build with
        | Raise e => (w2, Raise e)
        | Ok ctl_info =>
          match interfaceNum with
          | None => (w2, Raise (UnboundLocalError "interfaceNum"))
          | Some num =>
            let ctl_id := MacOSTunIfReq_ctl_id ctl_info in
            let w3 := emit w2 (EvConnect ctl_id (num + 1)) in
            match os_connect ctl_id (num + 1) with
            | Raise e => (w3, Raise e)
            | Ok _ =>
              (emit w3 EvMakefile,
               Ok (mkTunTapInterface name mode strip 4 MacOSUtunPacketInfo
                     false read_size rawSocket))
            end
          end
        end
      end
  else
    let devname := bstr "/dev/" ++ name in
    let w1 := emit w (EvOpen devname) in
    match os_open devname with
    | Raise e => (w1, Raise e)
    | Ok f =>
      (w1, Ok (mkTunTapInterface name mode strip 0
                 (if mode then IPv46 else Ether) false read_size f))
    end.

(** Lines 172-237, for a mode already known. *)
Definition open_device (w : World) (name : bytes) (mode strip : bool)
  (read_size : Z) : World * result TunTapInterface :=
  if LINUX then open_linux w name mode strip read_size
  else if BSD then open_bsd w name mode strip read_size
  else (w, Raise UnsupportedPlatformError).

(** [TunTapInterface(iface, mode_tun, default_read_size, strip_packet_info)]:
    the object constructed, or the exception that leaves no object. *)
Definition __init__ (w : World) (iface_arg : option bytes)
  (mode_tun_arg : option bool) (read_size : Z) (strip : bool)
  : World * result TunTapInterface :=
  let name := match iface_arg with
              | None => conf_iface
              | Some i => i
              end in
  match resolve_mode name mode_tun_arg with
  | Raise e => (w, Raise e)
  | Ok mode => open_device w name mode strip read_size
  end.

(** *** Vocabulary of the properties *)

(** The size asked for: [x], or the default of the channel. *)
Definition requested_size (self : TunTapInterface) (x : option Z) : Z :=
  match x with
  | None => default_read_size self
  | Some n => n
  end.

(** [raw(LinuxTunPacketInfo(flags=.., type=..) / payload)]: the header in
    front of the payload bytes. *)
Definition LinuxTunPacketInfo_attach (h : tun_pi) (payload : bytes)
  : result bytes :=
  match LinuxTunPacketInfo_build h with
  | Ok hdr => Ok (hdr ++ payload)
  | Raise e => Raise e
  end.

(** The two warnings of the Linux branch. *)
Definition tap_warning : string :=
  "tap devices on Linux do not include packet info!".
Definition truncation_warning : string :=
  "Linux interface names are limited to 16 bytes, truncating!".

(** The warnings in a trace, and the arguments of its [ioctl] calls. *)
Fixpoint warnings (tr : list Event) : list string :=
  match tr with
  | [] => []
  | EvWarning msg :: tr' => msg :: warnings tr'
  | _ :: tr' => warnings tr'
  end.

Fixpoint ioctl_args (tr : list Event) : list bytes :=
  match tr with
  | [] => []
  | EvIoctl _ arg :: tr' => arg :: ioctl_args tr'
  | _ :: tr' => ioctl_args tr'
  end.

(** What happened between two worlds. *)
Definition events_since (w w' : World) : list Event :=
  skipn (List.length (trace w)) (trace w').

(** The fields of a serialized [LinuxTunIfReq]. *)
Definition LinuxTunIfReq_name (req : bytes) : bytes := slice_to req 16.
Definition LinuxTunIfReq_flags (req : bytes) : Z :=
  struct_unpack native (slice_from req 16).

(** The name the constructor works on. *)
Definition interface_name (iface_arg : option bytes) : bytes :=
  match iface_arg with
  | None => conf_iface
  | Some i => i
  end.

(** The Linux branch in closed form: the name it keeps, the flags it asks
    for, the warnings it gives and the request it sends. *)
Definition linux_name (name : bytes) : bytes :=
  if len name >? LINUX_IFNAMSIZ then slice_to name LINUX_IFNAMSIZ else name.

Definition linux_flags (mode : bool) : Z :=
  if mode then LINUX_IFF_TUN else Z.lor LINUX_IFF_TAP LINUX_IFF_NO_PI.

Definition linux_warnings (name : bytes) (mode : bool) : list Event :=
  (if mode then [] else [EvWarning tap_warning])
  ++ (if len name >? LINUX_IFNAMSIZ then [EvWarning truncation_warning]
      else []).

Definition linux_request (name : bytes) (mode : bool) : bytes :=
  StrFixedLenField_build 16 (linux_name name)
  ++ match native with
     | LittleEndian => le_bytes 2 (linux_flags mode)
     | BigEndian => rev (le_bytes 2 (linux_flags mode))
     end.

(** A sequence of calls on a channel, and whether each one failed. *)
Inductive call : Type :=
| CallRecv (x : option Z)
| CallSend (x : Frame).

Definition failure {A : Type} (r : result A) : option exn :=
  match r with
  | Ok _ => None
  | Raise e => Some e
  end.

Fixpoint run (w : World) (self : TunTapInterface) (calls : list call)
  : list (option exn) :=
  match calls with
  | [] => []
  | CallRecv x :: calls' =>
      let '(w', self', r) := recv_raw w self x in
      failure r :: run w' self' calls'
  | CallSend x :: calls' =>
      let '(w', _, r) := send w self x in
      failure r :: run w' self calls'
  end.

(** What holds of a channel from its construction on: the overhead is 4
    under one of the two header classes of this module and 0 under [IPv46] or
    [Ether], and the channel is marked closed exactly when its file object
    is. *)
Definition channel_invariant (self : TunTapInterface) : bool :=
  (((mtu_overhead self =? 4)
    && (class_eqb (kernel_packet_class self) LinuxTunPacketInfo
        || class_eqb (kernel_packet_class self) MacOSUtunPacketInfo))
   || ((mtu_overhead self =? 0)
       && (class_eqb (kernel_packet_class self) IPv46
           || class_eqb (kernel_packet_class self) Ether)))
  && Bool.eqb (closed self) (file_closed (sock self)).

(** ** Properties *)

(** *** Bytes and scalars *)

Lemma len_nonneg (s : bytes) : 0 <= len s.
Proof. unfold len. lia. Qed.

Lemma len_app (s t : bytes) : len (s ++ t) = len s + len t.
Proof. unfold len. rewrite length_app. lia. Qed.

Lemma slice_to_app (s t : bytes) : slice_to (s ++ t) (len s) = s.
Proof.
  unfold slice_to, len. rewrite Nat2Z.id.
  rewrite firstn_app, Nat.sub_diag, firstn_all. simpl. apply app_nil_r.
Qed.

Lemma slice_from_app (s t : bytes) : slice_from (s ++ t) (len s) = t.
Proof.
  unfold slice_from, len. rewrite Nat2Z.id.
  rewrite skipn_app, Nat.sub_diag, skipn_all. reflexivity.
Qed.

Lemma slice_to_app_len (s t : bytes) (n : Z) :
  len s = n -> slice_to (s ++ t) n = s.
Proof. intros <-. apply slice_to_app. Qed.

Lemma slice_from_app_len (s t : bytes) (n : Z) :
  len s = n -> slice_from (s ++ t) n = t.
Proof. intros <-. apply slice_from_app. Qed.

Lemma slice_to_slice_to (s : bytes) (n m : Z) :
  0 <= n <= m -> slice_to (slice_to s m) n = slice_to s n.
Proof.
  intros H. unfold slice_to. rewrite firstn_firstn. f_equal. lia.
Qed.

Lemma len_slice_to (s : bytes) (n : Z) :
  0 <= n <= len s -> len (slice_to s n) = n.
Proof.
  unfold len, slice_to. intros H. rewrite length_firstn. lia.
Qed.

Lemma len_slice_from (s : bytes) (n : Z) :
  0 <= n <= len s -> len (slice_from s n) = len s - n.
Proof.
  unfold len, slice_from. intros H. rewrite length_skipn. lia.
Qed.

Lemma Z_of_byte_range (c : byte) : 0 <= Z_of_byte c < 256.
Proof.
  unfold Z_of_byte. pose proof (Byte.to_N_bounded c). lia.
Qed.

Lemma Z_of_byte_of_Z (z : Z) : 0 <= z < 256 -> Z_of_byte (byte_of_Z z) = z.
Proof.
  intros H. unfold Z_of_byte, byte_of_Z.
  rewrite Z.mod_small by lia.
  destruct (Byte.of_N (Z.to_N z)) as [c|] eqn:E.
  - apply Byte.to_of_N in E. rewrite E. lia.
  - apply Byte.of_N_None_iff in E. lia.
Qed.

Lemma byte_of_Z_of_byte (c : byte) : byte_of_Z (Z_of_byte c) = c.
Proof.
  unfold byte_of_Z, Z_of_byte.
  pose proof (Byte.to_N_bounded c).
  rewrite Z.mod_small by lia.
  rewrite N2Z.id, Byte.of_to_N. reflexivity.
Qed.

Lemma length_le_bytes (n : nat) (v : Z) : List.length (le_bytes n v) = n.
Proof.
  revert v. induction n as [|n IH]; intros v; simpl; [|rewrite IH]; reflexivity.
Qed.

Lemma le_value_le_bytes (n : nat) (v : Z) :
  0 <= v < 256 ^ Z.of_nat n -> le_value (le_bytes n v) = v.
Proof.
  revert v. induction n as [|n IH]; intros v H.
  - simpl in *. lia.
  - rewrite Nat2Z.inj_succ, Z.pow_succ_r in H by lia.
    cbn [le_bytes le_value].
    rewrite IH.
    + unfold byte_of_Z, Z_of_byte.
      pose proof (Z.mod_pos_bound v 256 ltac:(lia)) as Hm.
      destruct (Byte.of_N (Z.to_N (v mod 256))) as [c|] eqn:E.
      * apply Byte.to_of_N in E. rewrite E. rewrite Z2N.id by lia.
        pose proof (Z.div_mod v 256 ltac:(lia)). lia.
      * apply Byte.of_N_None_iff in E. lia.
    + split.
      * apply Z.div_pos; lia.
      * apply Z.div_lt_upper_bound; lia.
Qed.

Lemma struct_pack_length (o : byteorder) (n : nat) (v : Z) (s : bytes) :
  struct_pack o n v = Ok s -> len s = Z.of_nat n.
Proof.
  unfold struct_pack, len.
  destruct ((0 <=? v) && (v <? 256 ^ Z.of_nat n)); [|discriminate].
  intros [= <-]. destruct o; [rewrite length_rev|]; rewrite length_le_bytes;
    reflexivity.
Qed.

Lemma struct_pack_in_range (o : byteorder) (n : nat) (v : Z) :
  0 <= v < 256 ^ Z.of_nat n -> exists s, struct_pack o n v = Ok s.
Proof.
  intros H. unfold struct_pack.
  replace ((0 <=? v) && (v <? 256 ^ Z.of_nat n)) with true
    by (symmetry; apply andb_true_iff; split; [apply Z.leb_le|apply Z.ltb_lt];
        lia).
  eexists. reflexivity.
Qed.

Lemma struct_unpack_pack (o : byteorder) (n : nat) (v : Z) (s : bytes) :
  struct_pack o n v = Ok s -> struct_unpack o s = v.
Proof.
  unfold struct_pack, struct_unpack.
  destruct ((0 <=? v) && (v <? 256 ^ Z.of_nat n)) eqn:E; [|discriminate].
  apply andb_true_iff in E. destruct E as [E1 E2].
  apply Z.leb_le in E1. apply Z.ltb_lt in E2.
  intros [= <-]. destruct o; [rewrite rev_involutive|];
    apply le_value_le_bytes; lia.
Qed.

Lemma slice_from_slice_to (s : bytes) (n m : Z) :
  0 <= m <= n -> slice_from (slice_to s n) m = slice_to (slice_from s m) (n - m).
Proof.
  intros H. unfold slice_from, slice_to.
  rewrite skipn_firstn_comm. f_equal. lia.
Qed.

(** *** Receiving *)

(** On an open channel [recv_raw] is one read of the requested size plus the
    overhead, one reading of the clock, and the cut after the header. *)
Lemma recv_raw_open (w : World) (self : TunTapInterface) (x : option Z) :
  file_closed (sock self) = false ->
  0 <= requested_size self x + mtu_overhead self ->
  let n := requested_size self x + mtu_overhead self in
  let dat := slice_to (pending (sock self)) n in
  let w' := mkWorld (trace w ++ [EvRead n]) (S (ticks w)) in
  let self' := set_sock self (mkFile false (slice_from (pending (sock self)) n)) in
  recv_raw w self x =
  (w', self',
   if (mtu_overhead self >? 0) && strip_packet_info self then
     match header_payload_class (kernel_packet_class self)
             (slice_to dat (mtu_overhead self)) with
     | Ok cls => Ok (cls, slice_from dat (mtu_overhead self), clock (ticks w))
     | Raise e => Raise e
     end
   else Ok (kernel_packet_class self, dat, clock (ticks w))).
Proof.
  intros Hopen Hn. cbv zeta. unfold recv_raw, requested_size in *.
  unfold file_read. rewrite Hopen.
  destruct ((match x with
             | Some x0 => x0
             | None => default_read_size self
             end + mtu_overhead self) <? 0) eqn:E;
    [apply Z.ltb_lt in E; destruct x; lia|].
  cbn [time_time emit trace ticks].
  destruct ((mtu_overhead self >? 0) && strip_packet_info self);
    [|destruct x; reflexivity].
  destruct x; cbn;
    match goal with
    | |- context [header_payload_class ?c ?h] =>
        destruct (header_payload_class c h); reflexivity
    end.
Qed.

(** A Linux header of four bytes always names a payload class. *)
Lemma header_payload_class_linux (hdr : bytes) :
  len hdr = 4 ->
  header_payload_class LinuxTunPacketInfo hdr =
  Ok (guess_by_type Ether_payload_guess
        (struct_unpack BigEndian (slice_to (slice_from hdr 2) 2))).
Proof.
  intros H. unfold header_payload_class. rewrite H. reflexivity.
Qed.

(** A [utun] header of four bytes names the class of its address family. *)
Lemma header_payload_class_utun (hdr : bytes) :
  len hdr = 4 ->
  header_payload_class MacOSUtunPacketInfo hdr =
  MacOSUtunPacketInfo_guess_payload_class (MacOSUtunPacketInfo_dissect hdr).
Proof.
  intros H. unfold header_payload_class. rewrite H. reflexivity.
Qed.

(** C1 (as amended).  On an open channel with overhead 4 and stripping
    enabled, [recv] with requested size [N] (the default size of the channel
    when none is given) performs exactly one read, of [N + 4] bytes.  When
    the stream supplies that many bytes, the outcome is decided by the header
    alone: if it names a payload class, exactly the [N] bytes that follow the
    four header bytes are returned; if it does not (the address family of a
    [utun] header is neither IPv4 nor IPv6), [recv] fails after the read.  On
    a Linux tun channel the header always names a class. *)
Theorem recv_raw_reads_size_plus_overhead
  (w : World) (self : TunTapInterface) (x : option Z) :
  mtu_overhead self = 4 ->
  strip_packet_info self = true ->
  file_closed (sock self) = false ->
  0 <= requested_size self x ->
  let N := requested_size self x in
  let dat := pending (sock self) in
  let payload := slice_to (slice_from dat 4) N in
  let '(w', _, res) := recv_raw w self x in
  trace w' = trace w ++ [EvRead (N + 4)] /\
  (N + 4 <= len dat ->
   len payload = N /\
   match header_payload_class (kernel_packet_class self) (slice_to dat 4) with
   | Ok cls => res = Ok (cls, payload, clock (ticks w))
   | Raise e => res = Raise e
   end /\
   (kernel_packet_class self = LinuxTunPacketInfo ->
    exists cls, res = Ok (cls, payload, clock (ticks w)))).
Proof.
  intros Hov Hstrip Hopen HN. cbv zeta.
  rewrite recv_raw_open by (try assumption; rewrite ?Hov; lia).
  rewrite Hov, Hstrip. cbn [Z.gtb Z.compare andb trace].
  split; [reflexivity|]. intros Hlen.
  rewrite slice_to_slice_to by lia.
  rewrite slice_from_slice_to by lia.
  replace (requested_size self x + 4 - 4) with (requested_size self x) by lia.
  assert (Hpl : len (slice_to (slice_from (pending (sock self)) 4)
                       (requested_size self x)) = requested_size self x).
  { apply len_slice_to. rewrite len_slice_from by lia. lia. }
  split; [exact Hpl|]. split.
  - destruct (header_payload_class _ _); reflexivity.
  - intros Hcls. rewrite Hcls.
    rewrite header_payload_class_linux by (apply len_slice_to; lia).
    eexists. reflexivity.
Qed.

(** C4.  On a stripped [recv] over a [utun] channel, a header whose address
    family is [AF_INET] yields [IP], one whose address family is [AF_INET6]
    yields [IPv6], and any other address family makes [recv] fail with
    [NotImplementedError] (the unsupported-address-family error). *)
Theorem utun_recv_payload_class
  (w : World) (self : TunTapInterface) (x : option Z) :
  AF_INET <> AF_INET6 ->
  kernel_packet_class self = MacOSUtunPacketInfo ->
  mtu_overhead self = 4 ->
  strip_packet_info self = true ->
  file_closed (sock self) = false ->
  0 <= requested_size self x ->
  4 <= len (pending (sock self)) ->
  let dat := slice_to (pending (sock self)) (requested_size self x + 4) in
  let af :=
    addr_family (MacOSUtunPacketInfo_dissect (slice_to (pending (sock self)) 4)) in
  let res := snd (recv_raw w self x) in
  (af = AF_INET -> res = Ok (IP, slice_from dat 4, clock (ticks w))) /\
  (af = AF_INET6 -> res = Ok (IPv6, slice_from dat 4, clock (ticks w))) /\
  (af <> AF_INET -> af <> AF_INET6 ->
   res = Raise UnsupportedAddressFamilyError).
Proof.
  intros Hdistinct Hcls Hov Hstrip Hopen HN Hlen. cbv zeta.
  rewrite recv_raw_open by (try assumption; rewrite ?Hov; lia).
  rewrite Hov, Hstrip, Hcls. cbn [Z.gtb Z.compare andb snd].
  rewrite slice_to_slice_to by lia.
  rewrite header_payload_class_utun by (apply len_slice_to; lia).
  unfold MacOSUtunPacketInfo_guess_payload_class.
  set (af := addr_family _).
  repeat split.
  - intros ->. rewrite Z.eqb_refl. reflexivity.
  - intros ->. destruct (AF_INET6 =? AF_INET) eqn:E.
    + apply Z.eqb_eq in E. congruence.
    + rewrite Z.eqb_refl. reflexivity.
  - intros H4 H6.
    destruct (af =? AF_INET) eqn:E4; [apply Z.eqb_eq in E4; contradiction|].
    destruct (af =? AF_INET6) eqn:E6; [apply Z.eqb_eq in E6; contradiction|].
    reflexivity.
Qed.

(** The header of a valid frame is four bytes that dissect to its fields. *)
Lemma LinuxTunPacketInfo_dissect_build (h : tun_pi) :
  0 <= flags h < 65536 ->
  0 <= type h < 65536 ->
  exists hdr,
    LinuxTunPacketInfo_build h = Ok hdr /\ len hdr = 4 /\
    LinuxTunPacketInfo_dissect hdr = h.
Proof.
  intros Hf Ht. unfold LinuxTunPacketInfo_build.
  destruct (struct_pack_in_range native 2 (flags h)) as [fl Efl];
    [change (256 ^ Z.of_nat 2) with 65536; lia|].
  destruct (struct_pack_in_range BigEndian 2 (type h)) as [ty Ety];
    [change (256 ^ Z.of_nat 2) with 65536; lia|].
  rewrite Efl, Ety. exists (fl ++ ty).
  pose proof (struct_pack_length _ _ _ _ Efl) as Lfl.
  pose proof (struct_pack_length _ _ _ _ Ety) as Lty.
  change (Z.of_nat 2) with 2 in Lfl, Lty.
  split; [reflexivity|]. split; [rewrite len_app; lia|].
  unfold LinuxTunPacketInfo_dissect.
  rewrite <- Lfl at 1. rewrite slice_to_app.
  rewrite <- Lfl. rewrite slice_from_app.
  replace (slice_to ty (len fl)) with ty.
  - rewrite (struct_unpack_pack _ _ _ _ Efl), (struct_unpack_pack _ _ _ _ Ety).
    destruct h; reflexivity.
  - rewrite Lfl, <- Lty. unfold slice_to, len. rewrite Nat2Z.id.
    symmetry. apply firstn_all.
Qed.

(** C2.  For every valid Tun-mode frame (flags and payload type of 16 bits),
    attaching the four-byte header and stripping it again through [recv]
    gives back the payload bytes, and the header dissects to the payload type
    that was encoded, from which alone the payload class is derived. *)
Theorem tun_header_roundtrip
  (w : World) (self : TunTapInterface) (h : tun_pi) (payload rest : bytes) :
  0 <= flags h < 65536 ->
  0 <= type h < 65536 ->
  kernel_packet_class self = LinuxTunPacketInfo ->
  mtu_overhead self = 4 ->
  strip_packet_info self = true ->
  file_closed (sock self) = false ->
  exists frame,
    LinuxTunPacketInfo_attach h payload = Ok frame /\
    len frame = 4 + len payload /\
    type (LinuxTunPacketInfo_dissect (slice_to frame 4)) = type h /\
    LinuxTunPacketInfo_dissect (slice_to frame 4) = h /\
    (pending (sock self) = frame ++ rest ->
     snd (recv_raw w self (Some (len payload))) =
     Ok (LinuxTunPacketInfo_guess_payload_class h, payload, clock (ticks w))).
Proof.
  intros Hf Ht Hcls Hov Hstrip Hopen.
  destruct (LinuxTunPacketInfo_dissect_build h Hf Ht) as (hdr & Eb & Lh & Ed).
  unfold LinuxTunPacketInfo_attach. rewrite Eb.
  exists (hdr ++ payload).
  assert (Hcut : slice_to (hdr ++ payload) 4 = hdr)
    by (rewrite <- Lh; apply slice_to_app).
  split; [reflexivity|]. split; [rewrite len_app; lia|].
  rewrite Hcut, Ed. split; [reflexivity|]. split; [reflexivity|].
  intros Hpending.
  pose proof (len_nonneg payload) as Hp.
  rewrite recv_raw_open
    by (try assumption; unfold requested_size; rewrite ?Hov; lia).
  rewrite Hov, Hstrip, Hcls, Hpending. unfold requested_size.
  cbn [Z.gtb Z.compare andb snd].
  replace (len payload + 4) with (len (hdr ++ payload))
    by (rewrite len_app; lia).
  rewrite slice_to_app.
  rewrite Hcut.
  rewrite header_payload_class_linux by exact Lh.
  replace (slice_from (hdr ++ payload) 4) with payload
    by (rewrite <- Lh; symmetry; apply slice_from_app).
  unfold LinuxTunPacketInfo_guess_payload_class.
  rewrite <- Ed. reflexivity.
Qed.

(** *** Construction *)

Lemma startswith_tap_not_tun (name : bytes) :
  startswith name (bstr "tap") = true ->
  startswith name (bstr "tun") = false /\
  startswith name (bstr "utun") = false.
Proof.
  change (bstr "tap") with [x74; x61; x70].
  change (bstr "tun") with [x74; x75; x6e].
  change (bstr "utun") with [x75; x74; x75; x6e].
  destruct name as [|c1 [|c2 name]]; cbn [startswith]; try discriminate.
  - rewrite andb_false_r. discriminate.
  - intros H.
    apply andb_true_iff in H. destruct H as [H1 H].
    apply andb_true_iff in H. destruct H as [H2 _].
    apply Byte.byte_dec_bl in H1, H2. subst c1 c2. split; reflexivity.
Qed.

(** An object is constructed in the mode the constructor resolved. *)
Lemma open_device_mode (w w' : World) (name : bytes) (mode strip : bool)
  (read_size : Z) (obj : TunTapInterface) :
  open_device w name mode strip read_size = (w', Ok obj) ->
  mode_tun obj = mode.
Proof.
  unfold open_device, open_linux, open_bsd.
  repeat match goal with
         | |- context [match ?x with _ => _ end] => destruct x
         end;
    intros [= _ <-] || discriminate; reflexivity.
Qed.

Lemma events_since_app (w : World) (new : list Event) (n : nat) :
  events_since w (mkWorld (trace w ++ new) n) = new.
Proof.
  unfold events_since. cbn [trace].
  rewrite skipn_app, skipn_all, Nat.sub_diag. reflexivity.
Qed.

Lemma len_StrFixedLenField_build (n : Z) (val : bytes) :
  0 <= n -> len (StrFixedLenField_build n val) = n.
Proof.
  intros H. unfold StrFixedLenField_build, slice_to, len.
  rewrite length_app, length_firstn, repeat_length. lia.
Qed.

Lemma StrFixedLenField_build_exact (n : Z) (val : bytes) :
  len val = n -> StrFixedLenField_build n val = val.
Proof.
  intros H. unfold StrFixedLenField_build, slice_to, len in *.
  rewrite firstn_all2 by lia.
  replace (Z.to_nat n - List.length val)%nat with 0%nat by lia.
  apply app_nil_r.
Qed.

Lemma struct_pack_linux_flags (o : byteorder) (mode : bool) :
  struct_pack o 2 (linux_flags mode) =
  Ok (match o with
      | LittleEndian => le_bytes 2 (linux_flags mode)
      | BigEndian => rev (le_bytes 2 (linux_flags mode))
      end).
Proof. destruct mode, o; reflexivity. Qed.

(** The Linux branch, run: warnings, then [open], then [ioctl]. *)
Lemma open_linux_run (w : World) (name : bytes) (mode strip : bool)
  (read_size : Z) :
  open_linux w name mode strip read_size =
  let dev := bstr "/dev/net/tun" in
  let req := linux_request name mode in
  match os_open dev with
  | Raise e =>
      (mkWorld (trace w ++ linux_warnings name mode ++ [EvOpen dev]) (ticks w),
       Raise e)
  | Ok f =>
      (mkWorld (trace w ++ linux_warnings name mode
                ++ [EvOpen dev; EvIoctl LINUX_TUNSETIFF req]) (ticks w),
       match os_ioctl LINUX_TUNSETIFF req with
       | Raise e => Raise e
       | Ok _ =>
           Ok (mkTunTapInterface (linux_name name) mode
                 (if mode then strip else true) (if mode then 4 else 0)
                 (if mode then LinuxTunPacketInfo else Ether) false
                 read_size f)
       end)
  end.
Proof.
  unfold open_linux, LinuxTunIfReq_build, linux_request, linux_warnings,
    linux_name.
  fold (linux_flags mode). rewrite struct_pack_linux_flags.
  fold tap_warning truncation_warning.
  destruct mode, (len name >? LINUX_IFNAMSIZ);
    cbv zeta; unfold emit; cbn [trace ticks app];
    destruct (os_open (bstr "/dev/net/tun"));
    rewrite <- ?app_assoc; cbn [app]; rewrite ?app_nil_r;
    try reflexivity;
    match goal with
    | |- context [os_ioctl ?r ?a] => destruct (os_ioctl r a); reflexivity
    end.
Qed.

Lemma LinuxTunIfReq_name_request (name : bytes) (mode : bool) :
  LinuxTunIfReq_name (linux_request name mode) =
  StrFixedLenField_build 16 (linux_name name).
Proof.
  unfold LinuxTunIfReq_name, linux_request.
  rewrite <- (len_StrFixedLenField_build 16 (linux_name name)) at 2 by lia.
  apply slice_to_app.
Qed.

Lemma LinuxTunIfReq_flags_request (name : bytes) (mode : bool) :
  LinuxTunIfReq_flags (linux_request name mode) = linux_flags mode.
Proof.
  unfold LinuxTunIfReq_flags, linux_request.
  rewrite <- (len_StrFixedLenField_build 16 (linux_name name)) at 2 by lia.
  rewrite slice_from_app.
  apply (struct_unpack_pack native 2). apply struct_pack_linux_flags.
Qed.

Lemma ioctl_args_linux (name : bytes) (mode : bool) (tail : list Event) :
  ioctl_args (linux_warnings name mode ++ EvOpen (bstr "/dev/net/tun") :: tail)
  = ioctl_args tail.
Proof.
  unfold linux_warnings.
  destruct mode, (len name >? LINUX_IFNAMSIZ); reflexivity.
Qed.

Lemma warnings_linux (name : bytes) (mode : bool) (tail : list Event) :
  warnings (linux_warnings name mode ++ tail) =
  (if mode then [] else [tap_warning])
  ++ (if len name >? LINUX_IFNAMSIZ then [truncation_warning] else [])
  ++ warnings tail.
Proof.
  unfold linux_warnings.
  destruct mode, (len name >? LINUX_IFNAMSIZ); reflexivity.
Qed.

Lemma init_linux (w : World) (iface_arg : option bytes)
  (mode_arg : option bool) (read_size : Z) (strip mode : bool) :
  LINUX = true ->
  resolve_mode (interface_name iface_arg) mode_arg = Ok mode ->
  __init__ w iface_arg mode_arg read_size strip =
  open_linux w (interface_name iface_arg) mode strip read_size.
Proof.
  intros HL Hm. unfold __init__, open_device. fold (interface_name iface_arg).
  rewrite Hm, HL. reflexivity.
Qed.

(** C3.  When no mode is given, a name that begins with "tun" or "utun"
    resolves to Tun mode and a name that begins with "tap" to Tap mode:
    construction goes on to open the device in that mode, exactly as with the
    mode given, every object it returns has that mode, and on Linux it does
    return one as soon as the device opens and takes the request.  For any
    other name construction fails with [ValueError] (the ambiguous-mode
    error) before anything is done: no object is returned.  An object
    constructed with a mode given has it. *)
Theorem init_mode_from_name
  (w : World) (iface_arg : option bytes) (read_size : Z) (strip : bool) :
  let name := interface_name iface_arg in
  let inferred (mode : bool) :=
    resolve_mode name None = Ok mode /\
    __init__ w iface_arg None read_size strip =
    open_device w name mode strip read_size /\
    __init__ w iface_arg None read_size strip =
    __init__ w iface_arg (Some mode) read_size strip /\
    (forall w' obj,
       __init__ w iface_arg None read_size strip = (w', Ok obj) ->
       mode_tun obj = mode) /\
    (LINUX = true ->
     forall f out,
       os_open (bstr "/dev/net/tun") = Ok f ->
       os_ioctl LINUX_TUNSETIFF (linux_request name mode) = Ok out ->
       exists w' obj,
         __init__ w iface_arg None read_size strip = (w', Ok obj) /\
         mode_tun obj = mode) in
  (startswith name (bstr "tun") = true \/
   startswith name (bstr "utun") = true -> inferred true) /\
  (startswith name (bstr "tap") = true -> inferred false) /\
  (startswith name (bstr "tun") = false ->
   startswith name (bstr "utun") = false ->
   startswith name (bstr "tap") = false ->
   __init__ w iface_arg None read_size strip =
   (w, Raise (AmbiguousModeError name))) /\
  (forall m w' obj,
     __init__ w iface_arg (Some m) read_size strip = (w', Ok obj) ->
     mode_tun obj = m).
Proof.
  cbv zeta.
  set (name := interface_name iface_arg).
  assert (Hinferred : forall mode,
            resolve_mode name None = Ok mode ->
            resolve_mode name None = Ok mode /\
            __init__ w iface_arg None read_size strip =
            open_device w name mode strip read_size /\
            __init__ w iface_arg None read_size strip =
            __init__ w iface_arg (Some mode) read_size strip /\
            (forall w' obj,
               __init__ w iface_arg None read_size strip = (w', Ok obj) ->
               mode_tun obj = mode) /\
            (LINUX = true ->
             forall f out,
               os_open (bstr "/dev/net/tun") = Ok f ->
               os_ioctl LINUX_TUNSETIFF (linux_request name mode) = Ok out ->
               exists w' obj,
                 __init__ w iface_arg None read_size strip = (w', Ok obj) /\
                 mode_tun obj = mode)).
  { intros mode Hm.
    assert (Hopen : __init__ w iface_arg None read_size strip =
                    open_device w name mode strip read_size)
      by (unfold __init__; fold (interface_name iface_arg); fold name;
          rewrite Hm; reflexivity).
    split; [exact Hm|]. split; [exact Hopen|]. split; [|split].
    - rewrite Hopen. unfold __init__. fold (interface_name iface_arg).
      reflexivity.
    - intros w' obj. rewrite Hopen. apply open_device_mode.
    - intros HL f out Hf Hout.
      rewrite (init_linux w iface_arg None read_size strip mode HL Hm),
        open_linux_run.
      cbv zeta. fold name. rewrite Hf, Hout.
      eexists _, _. split; reflexivity. }
  split; [|split; [|split]].
  - intros H. apply Hinferred. unfold resolve_mode.
    destruct H as [H|H]; rewrite H; [|rewrite orb_true_r]; reflexivity.
  - intros H. apply Hinferred. unfold resolve_mode.
    destruct (startswith_tap_not_tun name H) as [H1 H2].
    rewrite H, H1, H2. reflexivity.
  - intros H1 H2 H3. unfold __init__. fold (interface_name iface_arg).
    fold name. unfold resolve_mode. rewrite H1, H2, H3. reflexivity.
  - intros m w' obj. unfold __init__. fold (interface_name iface_arg).
    apply open_device_mode.
Qed.

(** X21.  On Linux construction succeeds as soon as the device opens and
    takes the request, whatever the name, once the mode is given or told by
    the name: the object holds the handle opened, is not closed and keeps the
    read size. *)
Lemma init_linux_succeeds (w : World) (iface_arg : option bytes)
  (mode_arg : option bool) (read_size : Z) (strip mode : bool) (f : File)
  (out : bytes) :
  LINUX = true ->
  resolve_mode (interface_name iface_arg) mode_arg = Ok mode ->
  os_open (bstr "/dev/net/tun") = Ok f ->
  os_ioctl LINUX_TUNSETIFF (linux_request (interface_name iface_arg) mode)
  = Ok out ->
  exists w' obj,
    __init__ w iface_arg mode_arg read_size strip = (w', Ok obj) /\
    sock obj = f /\ closed obj = false /\
    default_read_size obj = read_size.
Proof.
  intros HL Hm Hopen Hioctl.
  rewrite (init_linux _ _ _ _ _ _ HL Hm), open_linux_run. cbv zeta.
  rewrite Hopen, Hioctl. eexists _, _. repeat split.
Qed.

(** C5 (as amended).  On Linux a name longer than 16 bytes is cut to its
    first 16 bytes and the truncation warning is given exactly once, without
    stopping construction: it is the only warning in Tun mode, and in Tap
    mode it follows the warning of that mode, so that two warnings are given
    in all.  Construction goes on to open the device, the request sent
    carries those 16 bytes as its name, and so does the object constructed.
    The name field of a request is always 16 bytes: the name, cut at 16 bytes
    and padded with zero bytes. *)
Theorem linux_long_name_truncated
  (w : World) (iface_arg : option bytes) (mode_arg : option bool)
  (read_size : Z) (strip mode : bool) :
  LINUX = true ->
  resolve_mode (interface_name iface_arg) mode_arg = Ok mode ->
  LINUX_IFNAMSIZ < len (interface_name iface_arg) ->
  let name := interface_name iface_arg in
  let '(w', res) := __init__ w iface_arg mode_arg read_size strip in
  let new := events_since w w' in
  count_occ string_dec (warnings new) truncation_warning = 1%nat /\
  warnings new = ((if mode then [] else [tap_warning]) ++ [truncation_warning]) /\
  In (EvOpen (bstr "/dev/net/tun")) new /\
  (forall req, In req (ioctl_args new) ->
     LinuxTunIfReq_name req = slice_to name 16 /\
     len (LinuxTunIfReq_name req) = 16) /\
  (forall obj, res = Ok obj ->
     iface obj = slice_to name 16 /\ len (iface obj) = 16 /\
     exists req, ioctl_args new = [req]) /\
  (forall other fl req, LinuxTunIfReq_build other fl = Ok req ->
     LinuxTunIfReq_name req =
     slice_to other 16 ++ repeat x00 (16 - List.length other) /\
     len (LinuxTunIfReq_name req) = 16).
Proof.
  intros HL Hm Hlong. cbv zeta.
  rewrite (init_linux _ _ _ _ _ _ HL Hm), open_linux_run. cbv zeta.
  set (name := interface_name iface_arg) in *.
  assert (Hgt : (len name >? LINUX_IFNAMSIZ) = true) by (apply Z.gtb_lt; lia).
  assert (Hname : linux_name name = slice_to name 16)
    by (unfold linux_name; rewrite Hgt; reflexivity).
  assert (Hlen : len (slice_to name 16) = 16)
    by (apply len_slice_to; unfold LINUX_IFNAMSIZ in Hlong; lia).
  assert (Hreq : LinuxTunIfReq_name (linux_request name mode) = slice_to name 16)
    by (rewrite LinuxTunIfReq_name_request, Hname;
        apply StrFixedLenField_build_exact; exact Hlen).
  assert (Hbuild : forall other fl req,
            LinuxTunIfReq_build other fl = Ok req ->
            LinuxTunIfReq_name req =
            slice_to other 16 ++ repeat x00 (16 - List.length other) /\
            len (LinuxTunIfReq_name req) = 16).
  { intros other fl req. unfold LinuxTunIfReq_build.
    destruct (struct_pack native 2 fl) as [packed|]; [|discriminate].
    intros [= <-]. unfold LinuxTunIfReq_name.
    rewrite (slice_to_app_len _ _ 16)
      by (apply len_StrFixedLenField_build; lia).
    split; [reflexivity|].
    apply len_StrFixedLenField_build. lia. }
  destruct (os_open (bstr "/dev/net/tun")) as [f|e];
    rewrite events_since_app, warnings_linux, ioctl_args_linux, Hgt;
    cbn [warnings ioctl_args app].
  - repeat split.
    + destruct mode; cbn [app count_occ];
        repeat (destruct (string_dec _ _); try discriminate; try contradiction);
        reflexivity.
    + apply in_or_app. right. left. reflexivity.
    + destruct H as [<-|[]]. exact Hreq.
    + destruct H as [<-|[]]. rewrite Hreq. exact Hlen.
    + destruct (os_ioctl _ _); [|discriminate].
      injection H as <-. cbn [iface]. exact Hname.
    + destruct (os_ioctl _ _); [|discriminate].
      injection H as <-. cbn [iface]. rewrite Hname. exact Hlen.
    + eexists. reflexivity.
    + apply (Hbuild other fl req H).
    + apply (Hbuild other fl req H).
  - repeat split; try discriminate; try contradiction.
    + destruct mode; cbn [app count_occ];
        repeat (destruct (string_dec _ _); try discriminate; try contradiction);
        reflexivity.
    + apply in_or_app. right. left. reflexivity.
    + apply (Hbuild other fl req H).
    + apply (Hbuild other fl req H).
Qed.

(** C6.  On Linux, in Tap mode the request always carries both the is-tap
    bit and the no-packet-info bit, the warning of that mode is given, and
    the object constructed strips packet information whatever the caller
    asked for.  In Tun mode the flags are the is-tun bit alone, and the
    caller's choice is kept. *)
Theorem linux_tap_forces_no_pi
  (w : World) (iface_arg : option bytes) (mode_arg : option bool)
  (read_size : Z) (strip mode : bool) :
  LINUX = true ->
  resolve_mode (interface_name iface_arg) mode_arg = Ok mode ->
  let '(w', res) := __init__ w iface_arg mode_arg read_size strip in
  let new := events_since w w' in
  (mode = false ->
   In tap_warning (warnings new) /\
   (forall req, In req (ioctl_args new) ->
      LinuxTunIfReq_flags req = Z.lor LINUX_IFF_TAP LINUX_IFF_NO_PI /\
      Z.land (LinuxTunIfReq_flags req) LINUX_IFF_TAP = LINUX_IFF_TAP /\
      Z.land (LinuxTunIfReq_flags req) LINUX_IFF_NO_PI = LINUX_IFF_NO_PI) /\
   (forall obj, res = Ok obj ->
      strip_packet_info obj = true /\ mode_tun obj = false /\
      exists req, ioctl_args new = [req])) /\
  (mode = true ->
   ~ In tap_warning (warnings new) /\
   (forall req, In req (ioctl_args new) ->
      LinuxTunIfReq_flags req = LINUX_IFF_TUN /\
      Z.land (LinuxTunIfReq_flags req) LINUX_IFF_TAP = 0 /\
      Z.land (LinuxTunIfReq_flags req) LINUX_IFF_NO_PI = 0) /\
   (forall obj, res = Ok obj ->
      strip_packet_info obj = strip /\ mode_tun obj = true /\
      exists req, ioctl_args new = [req])).
Proof.
  intros HL Hm. cbv zeta.
  rewrite (init_linux _ _ _ _ _ _ HL Hm), open_linux_run. cbv zeta.
  set (name := interface_name iface_arg) in *.
  pose proof (LinuxTunIfReq_flags_request name mode) as Hfl.
  destruct (os_open (bstr "/dev/net/tun")) as [f|e];
    rewrite events_since_app, warnings_linux, ioctl_args_linux;
    cbn [warnings ioctl_args app]; rewrite ?app_nil_r;
    (split; intros ->; cbn [app linux_flags] in Hfl |- *).
  - split; [left; reflexivity|]. split.
    + intros req [<-|[]]. rewrite Hfl. repeat split.
    + intros obj H. destruct (os_ioctl _ _); [|discriminate].
      injection H as <-. repeat split. eexists. reflexivity.
  - split.
    + destruct (len name >? LINUX_IFNAMSIZ); cbn; intros H;
        repeat (destruct H as [H|H]; try discriminate H); exact H.
    + split.
      * intros req [<-|[]]. rewrite Hfl. repeat split.
      * intros obj H. destruct (os_ioctl _ _); [|discriminate].
        injection H as <-. repeat split. eexists. reflexivity.
  - split; [left; reflexivity|]. split.
    + intros req [].
    + intros obj H. discriminate.
  - split.
    + destruct (len name >? LINUX_IFNAMSIZ); cbn; intros H;
        repeat (destruct H as [H|H]; try discriminate H); exact H.
    + split; [intros req []|intros obj H; discriminate].
Qed.

(** *** Sending *)

Lemma events_since_emit (w : World) (e : Event) :
  events_since w (emit w e) = [e].
Proof. apply events_since_app. Qed.

Lemma trace_send_stamp (w : World) (x : Frame) :
  trace (fst (send_stamp w x)) = trace w.
Proof.
  unfold send_stamp. destruct (hasattr_sent_time x); reflexivity.
Qed.

Lemma isinstance_send_stamp (w : World) (x : Frame) (c : PyClass) :
  isinstance (snd (send_stamp w x)) c = isinstance x c.
Proof.
  unfold send_stamp. destruct (hasattr_sent_time x); reflexivity.
Qed.

(** The write on an open channel: one [write], then a [flush] when it
    returned, a log record when it raised a socket error, and nothing more
    when it raised anything else. *)
Lemma send_write_open (w : World) (self : TunTapInterface) (sx : bytes) :
  file_closed (sock self) = false ->
  send_write w self sx =
  match os_write w sx with
  | Ok r =>
      (mkWorld (trace w ++ [EvWrite sx; EvFlush]) (ticks w), Ok (Some r))
  | Raise e =>
      if is_socket_error e then
        (mkWorld (trace w ++ [EvWrite sx;
                              EvLogError "%s send" "TunTapInterface"])
           (ticks w), Ok None)
      else (mkWorld (trace w ++ [EvWrite sx]) (ticks w), Raise e)
  end.
Proof.
  intros Hopen. unfold send_write, file_write, file_flush. rewrite Hopen.
  destruct (os_write w sx) as [r|e].
  - unfold emit. cbn [trace ticks]. rewrite <- app_assoc. reflexivity.
  - destruct (is_socket_error e); unfold emit; cbn [trace ticks];
      rewrite <- ?app_assoc; reflexivity.
Qed.

Lemma events_since_same_trace (w w1 : World) (new : list Event) (n : nat) :
  trace w1 = trace w ->
  events_since w (mkWorld (trace w1 ++ new) n) = new.
Proof. intros ->. apply events_since_app. Qed.

(** C8.  [send] wraps the frame by the kernel packet class of the channel:
    when that class is the auto-detect wrapper [IPv46], a frame that is
    neither an [IP] nor an [IPv6] instance is put under a default [IP], and
    one that is passes as it is; when it is any other class, a frame that is
    not an instance of it is put under its default header, and one that is
    passes as it is.  The frame so wrapped is serialized and handed to the
    handle in one write, which is followed by a flush when it returns. *)
Theorem send_wraps_then_writes
  (w : World) (self : TunTapInterface) (x : Frame) :
  file_closed (sock self) = false ->
  let cls := kernel_packet_class self in
  let '(w1, x1) := send_stamp w x in
  let wrapped := send_wrap self x1 in
  (cls = IPv46 -> isinstance x IP = false -> isinstance x IPv6 = false ->
   wrapped = div IP x1) /\
  (cls = IPv46 -> isinstance x IP = true \/ isinstance x IPv6 = true ->
   wrapped = x1) /\
  (cls <> IPv46 -> isinstance x cls = false -> wrapped = div cls x1) /\
  (cls <> IPv46 -> isinstance x cls = true -> wrapped = x1) /\
  let '(w', _, res) := send w self x in
  match os_write w1 (raw wrapped) with
  | Ok r =>
      events_since w w' = [EvWrite (raw wrapped); EvFlush] /\
      res = Ok (Some r)
  | Raise e =>
      events_since w w' =
      EvWrite (raw wrapped)
      :: (if is_socket_error e
          then [EvLogError "%s send" "TunTapInterface"] else [])
  end.
Proof.
  intros Hopen. cbv zeta. unfold send.
  pose proof (trace_send_stamp w x) as Htr.
  pose proof (isinstance_send_stamp w x) as Hinst.
  destruct (send_stamp w x) as [w1 x1]. cbn [fst snd] in Htr, Hinst.
  unfold send_wrap. rewrite !Hinst.
  repeat split.
  - intros -> -> ->. reflexivity.
  - intros -> [-> | ->]; cbn; rewrite ?orb_true_r; reflexivity.
  - intros Hne ->. unfold class_eqb.
    destruct (PyClass_eq_dec _ _); [contradiction|reflexivity].
  - intros Hne ->. unfold class_eqb.
    destruct (PyClass_eq_dec _ _); [contradiction|reflexivity].
  - fold (send_wrap self x1). rewrite send_write_open by exact Hopen.
    destruct (os_write w1 _) as [r|e].
    + rewrite events_since_same_trace by exact Htr. split; reflexivity.
    + destruct (is_socket_error e);
        rewrite events_since_same_trace by exact Htr; reflexivity.
Qed.

(** C9.  When the write raises a socket error, [send] catches it, logs one
    runtime error that names the class, returns [None] instead of raising,
    and touches the handle no more: one write, no second attempt, no flush. *)
Theorem send_write_error_logged
  (w : World) (self : TunTapInterface) (x : Frame) (e : exn) :
  file_closed (sock self) = false ->
  os_write (fst (send_stamp w x))
    (raw (send_wrap self (snd (send_stamp w x)))) = Raise e ->
  is_socket_error e = true ->
  let sx := raw (send_wrap self (snd (send_stamp w x))) in
  let '(w', _, res) := send w self x in
  res = Ok None /\
  events_since w w' = [EvWrite sx; EvLogError "%s send" "TunTapInterface"].
Proof.
  intros Hopen Hwrite Hsock. cbv zeta. unfold send.
  pose proof (trace_send_stamp w x) as Htr.
  destruct (send_stamp w x) as [w1 x1]. cbn [fst snd] in *.
  rewrite send_write_open by exact Hopen.
  rewrite Hwrite, Hsock.
  rewrite events_since_same_trace by exact Htr. split; reflexivity.
Qed.

(** C10.  For a frame that has a [sent_time] attribute, [send] reads the
    clock and assigns the time to the caller's object first: the rest of the
    call, wrapping, serialization and write, runs on the frame so stamped,
    and the caller's object is left stamped whatever the outcome. *)
Theorem send_sets_sent_time
  (w : World) (self : TunTapInterface) (x : Frame) :
  hasattr_sent_time x = true ->
  let now := clock (ticks w) in
  let stamped := set_sent_time x now in
  let w1 := mkWorld (trace w) (S (ticks w)) in
  send_stamp w x = (w1, stamped) /\
  sent_time stamped = Some (Some now) /\
  send w self x =
  (fst (send_write w1 self (raw (send_wrap self stamped))), stamped,
   snd (send_write w1 self (raw (send_wrap self stamped)))) /\
  snd (fst (send w self x)) = stamped.
Proof.
  intros Hattr. cbv zeta.
  assert (Hstamp : send_stamp w x =
                   (mkWorld (trace w) (S (ticks w)),
                    set_sent_time x (clock (ticks w))))
    by (unfold send_stamp; rewrite Hattr; reflexivity).
  unfold send. rewrite Hstamp.
  destruct (send_write _ self _) as [w2 r].
  repeat split.
Qed.

(** *** After [close] *)

Lemma set_sock_same (self : TunTapInterface) : set_sock self (sock self) = self.
Proof. destruct self; reflexivity. Qed.

Lemma recv_raw_closed (w : World) (self : TunTapInterface) (x : option Z) :
  file_closed (sock self) = true ->
  recv_raw w self x = (w, self, Raise ClosedChannelError).
Proof.
  intros H. unfold recv_raw, file_read. rewrite H, set_sock_same.
  reflexivity.
Qed.

Lemma send_closed (w : World) (self : TunTapInterface) (x : Frame) :
  file_closed (sock self) = true ->
  send w self x =
  (fst (send_stamp w x), snd (send_stamp w x), Raise ClosedChannelError).
Proof.
  intros H. unfold send, send_write, file_write. rewrite H.
  destruct (send_stamp w x). reflexivity.
Qed.

Lemma run_closed (self : TunTapInterface) (calls : list call) (w : World) :
  file_closed (sock self) = true ->
  run w self calls =
  repeat (Some ClosedChannelError) (List.length calls).
Proof.
  intros H. revert w.
  induction calls as [|c calls IH]; intros w; [reflexivity|].
  destruct c as [x|x]; cbn [run List.length repeat].
  - rewrite recv_raw_closed by exact H. cbn [failure]. f_equal. apply IH.
  - rewrite send_closed by exact H. cbn [failure]. f_equal. apply IH.
Qed.

(** The handle is released once: closing again does nothing. *)
Lemma close_once (w : World) (self : TunTapInterface) :
  let '(w1, s1) := close w self in
  close w1 s1 = (w1, s1) /\
  (closed self = false -> events_since w w1 = [EvClose]).
Proof.
  unfold close. destruct (closed self) eqn:E.
  - rewrite E. split; [reflexivity|discriminate].
  - cbn [closed]. split; [reflexivity|]. intros _. apply events_since_emit.
Qed.

(** C7.  Once [close()] has been called on a channel, every later call of
    [recv] or [send] fails with the error of a closed file object, and does
    so again on every call of any sequence of them; nothing reaches the
    handle. *)
Theorem closed_channel_fails (w : World) (self : TunTapInterface) :
  closed self = file_closed (sock self) ->
  let s1 := snd (close w self) in
  closed s1 = true /\
  (forall w2 x, recv_raw w2 s1 x = (w2, s1, Raise ClosedChannelError)) /\
  (forall w2 x,
     snd (send w2 s1 x) = Raise ClosedChannelError /\
     trace (fst (fst (send w2 s1 x))) = trace w2) /\
  (forall w2 calls,
     run w2 s1 calls =
     repeat (Some ClosedChannelError) (List.length calls)).
Proof.
  intros Hwf. cbv zeta.
  assert (Hc : closed (snd (close w self)) = true /\
               file_closed (sock (snd (close w self))) = true).
  { unfold close.
    destruct (closed self) eqn:E; cbn [snd closed sock file_closed].
    - split; [exact E|]. rewrite <- Hwf. reflexivity.
    - split; reflexivity. }
  destruct Hc as [Hc Hf].
  split; [exact Hc|]. split; [|split].
  - intros w2 x. apply recv_raw_closed. exact Hf.
  - intros w2 x. rewrite send_closed by exact Hf. cbn [fst snd].
    split; [reflexivity|apply trace_send_stamp].
  - intros w2 calls. apply run_closed. exact Hf.
Qed.

(** *** Further properties of receiving *)



(** The read of a channel that has nothing to strip. *)
Lemma recv_raw_whole
  (w : World) (self : TunTapInterface) (x : option Z) :
  file_closed (sock self) = false ->
  0 <= requested_size self x + mtu_overhead self ->
  mtu_overhead self <= 0 \/ strip_packet_info self = false ->
  recv_raw w self x =
  (mkWorld (trace w ++ [EvRead (requested_size self x + mtu_overhead self)])
     (S (ticks w)),
   set_sock self
     (mkFile false
        (slice_from (pending (sock self))
           (requested_size self x + mtu_overhead self))),
   Ok (kernel_packet_class self,
       slice_to (pending (sock self))
         (requested_size self x + mtu_overhead self),
       clock (ticks w))).
Proof.
  intros Hopen Hn Hcase.
  rewrite recv_raw_open by assumption.
  replace ((mtu_overhead self >? 0) && strip_packet_info self) with false;
    [reflexivity|].
  symmetry. destruct Hcase as [Hov | Hstrip].
  - apply andb_false_iff. left.
    destruct (mtu_overhead self >? 0) eqn:E; [|reflexivity].
    apply Z.gtb_lt in E. lia.
  - rewrite Hstrip. apply andb_false_r.
Qed.

(** X1.  Without a header to strip (no overhead, or stripping turned off)
    [recv_raw] returns the kernel packet class of the channel and everything
    it read, header included. *)
Theorem recv_raw_unstripped
  (w : World) (self : TunTapInterface) (x : option Z) :
  file_closed (sock self) = false ->
  0 <= requested_size self x + mtu_overhead self ->
  mtu_overhead self <= 0 \/ strip_packet_info self = false ->
  recv_raw w self x =
  (mkWorld (trace w ++ [EvRead (requested_size self x + mtu_overhead self)])
     (S (ticks w)),
   set_sock self
     (mkFile false
        (slice_from (pending (sock self))
           (requested_size self x + mtu_overhead self))),
   Ok (kernel_packet_class self,
       slice_to (pending (sock self))
         (requested_size self x + mtu_overhead self),
       clock (ticks w))).
Proof.
  intros Hopen Hn Hcase.
  apply recv_raw_whole; assumption.
Qed.



(** *** Further properties of construction *)

(** The BSD branch, run. *)
Lemma open_bsd_run (w : World) (name : bytes) (mode strip : bool)
  (read_size : Z) :
  open_bsd w name mode strip read_size =
  if negb (startswith name (bstr "tap") || startswith name (bstr "tun")
           || startswith name (bstr "utun")) then
    (w, Raise InvalidNameError)
  else if startswith name (bstr "utun") then
    if negb (utf8_valid name) then (w, Raise UnicodeDecodeError)
    else
      match os_socket with
      | Raise e => (mkWorld (trace w ++ [EvSocket]) (ticks w), Raise e)
      | Ok rawSocket =>
        let req := MacOSTunIfReq_build in
        match os_ioctl DARWIN_CTLIOCGINFO req with
        | Raise e =>
            (mkWorld (trace w ++ [EvSocket; EvIoctl DARWIN_CTLIOCGINFO req])
               (ticks w), Raise e)
        | Ok ctl_info =>
          match re_match_number name with
          | None =>
              (mkWorld (trace w ++ [EvSocket; EvIoctl DARWIN_CTLIOCGINFO req])
                 (ticks w), Raise (UnboundLocalError "interfaceNum"))
          | Some num =>
            let ctl_id := MacOSTunIfReq_ctl_id ctl_info in
            match os_connect ctl_id (num + 1) with
            | Raise e =>
                (mkWorld (trace w ++ [EvSocket; EvIoctl DARWIN_CTLIOCGINFO req;
                                      EvConnect ctl_id (num + 1)])
                   (ticks w), Raise e)
            | Ok _ =>
                (mkWorld (trace w ++ [EvSocket; EvIoctl DARWIN_CTLIOCGINFO req;
                                      EvConnect ctl_id (num + 1); EvMakefile])
                   (ticks w),
                 Ok (mkTunTapInterface name mode strip 4 MacOSUtunPacketInfo
                       false read_size rawSocket))
            end
          end
        end
      end
  else
    match os_open (bstr "/dev/" ++ name) with
    | Raise e =>
        (mkWorld (trace w ++ [EvOpen (bstr "/dev/" ++ name)]) (ticks w),
         Raise e)
    | Ok f =>
        (mkWorld (trace w ++ [EvOpen (bstr "/dev/" ++ name)]) (ticks w),
         Ok (mkTunTapInterface name mode strip 0
               (if mode then IPv46 else Ether) false read_size f))
    end.
Proof.
  unfold open_bsd.
  destruct (negb _); [reflexivity|].
  destruct (startswith name (bstr "utun")).
  - destruct (negb (utf8_valid name)); [reflexivity|].
    unfold emit; cbn [trace ticks].
    destruct os_socket as [rawSocket|e]; [|reflexivity].
    destruct (os_ioctl _ _) as [ctl_info|e];
      [|rewrite <- ?app_assoc; reflexivity].
    destruct (re_match_number name) as [num|];
      [|rewrite <- ?app_assoc; reflexivity].
    cbv zeta. destruct (os_connect _ _);
      rewrite <- ?app_assoc; reflexivity.
  - cbv zeta. unfold emit; cbn [trace ticks].
    destruct (os_open _); reflexivity.
Qed.

Lemma init_resolved (w : World) (iface_arg : option bytes)
  (mode_arg : option bool) (read_size : Z) (strip mode : bool) :
  resolve_mode (interface_name iface_arg) mode_arg = Ok mode ->
  __init__ w iface_arg mode_arg read_size strip =
  open_device w (interface_name iface_arg) mode strip read_size.
Proof.
  intros Hm. unfold __init__. fold (interface_name iface_arg).
  rewrite Hm. reflexivity.
Qed.

Lemma init_returns_resolved (w w' : World) (iface_arg : option bytes)
  (mode_arg : option bool) (read_size : Z) (strip : bool)
  (obj : TunTapInterface) :
  __init__ w iface_arg mode_arg read_size strip = (w', Ok obj) ->
  exists mode,
    resolve_mode (interface_name iface_arg) mode_arg = Ok mode /\
    open_device w (interface_name iface_arg) mode strip read_size
    = (w', Ok obj).
Proof.
  unfold __init__. fold (interface_name iface_arg).
  destruct (resolve_mode _ _) as [mode|e]; [|discriminate].
  intros H. exists mode. split; [reflexivity|exact H].
Qed.

(** X4.  Whatever the platform and the name, an object that construction
    returns is an open channel with the read size it was given, and its
    overhead fits its kernel packet class: 4 under [LinuxTunPacketInfo] or
    [MacOSUtunPacketInfo], 0 under [IPv46] or [Ether]. *)
Theorem init_establishes_invariant
  (w w' : World) (iface_arg : option bytes) (mode_arg : option bool)
  (read_size : Z) (strip : bool) (obj : TunTapInterface) :
  (forall path f, os_open path = Ok f -> file_closed f = false) ->
  (forall f, os_socket = Ok f -> file_closed f = false) ->
  __init__ w iface_arg mode_arg read_size strip = (w', Ok obj) ->
  channel_invariant obj = true /\
  closed obj = false /\
  file_closed (sock obj) = false /\
  default_read_size obj = read_size.
Proof.
  intros Hopen Hsocket Hinit.
  destruct (init_returns_resolved _ _ _ _ _ _ _ Hinit) as (mode & _ & Hdev).
  clear Hinit. unfold open_device in Hdev.
  destruct LINUX.
  - rewrite open_linux_run in Hdev. cbv zeta in Hdev.
    destruct (os_open (bstr "/dev/net/tun")) as [f|e] eqn:Ef; [|discriminate].
    destruct (os_ioctl _ _); [|discriminate].
    injection Hdev as _ <-. unfold channel_invariant.
    cbn [mtu_overhead kernel_packet_class closed sock default_read_size].
    rewrite (Hopen _ _ Ef). destruct mode; repeat split.
  - destruct BSD; [|discriminate].
    rewrite open_bsd_run in Hdev.
    destruct (negb (_ || _ || _)); [discriminate|].
    destruct (startswith _ (bstr "utun")).
    + destruct (negb (utf8_valid _)); [discriminate|].
      destruct os_socket as [rawSocket|e] eqn:Es; [|discriminate].
      cbv zeta in Hdev.
      destruct (os_ioctl _ _); [|discriminate].
      destruct (re_match_number _); [|discriminate].
      destruct (os_connect _ _); [|discriminate].
      injection Hdev as _ <-. unfold channel_invariant.
      cbn [mtu_overhead kernel_packet_class closed sock default_read_size].
      rewrite (Hsocket _ eq_refl). repeat split.
    + destruct (os_open _) as [f|e] eqn:Ef; [|discriminate].
      injection Hdev as _ <-. unfold channel_invariant.
      cbn [mtu_overhead kernel_packet_class closed sock default_read_size].
      rewrite (Hopen _ _ Ef). destruct mode; repeat split.
Qed.

(** X5.  A call of [recv_raw], whatever its outcome, changes nothing of the
    channel but the position in the stream: name, mode, stripping, overhead,
    kernel packet class, closed mark and read size are as before, and the
    invariant of the channel is kept. *)
Theorem recv_raw_keeps_channel
  (w : World) (self : TunTapInterface) (x : option Z) :
  let self' := snd (fst (recv_raw w self x)) in
  iface self' = iface self /\
  mode_tun self' = mode_tun self /\
  strip_packet_info self' = strip_packet_info self /\
  mtu_overhead self' = mtu_overhead self /\
  kernel_packet_class self' = kernel_packet_class self /\
  closed self' = closed self /\
  default_read_size self' = default_read_size self /\
  file_closed (sock self') = file_closed (sock self) /\
  (channel_invariant self = true -> channel_invariant self' = true).
Proof.
  cbv zeta. unfold recv_raw, file_read.
  destruct (file_closed (sock self)) eqn:Hc.
  - cbn [fst snd]. rewrite set_sock_same, Hc. repeat split. auto.
  - assert (Hgoal : forall f r,
              file_closed f = false ->
              let self' := snd (fst (A := World * TunTapInterface)
                                    (B := result (PyClass * bytes * timestamp))
                                    (fst r, set_sock self f, snd r)) in
              iface self' = iface self /\
              mode_tun self' = mode_tun self /\
              strip_packet_info self' = strip_packet_info self /\
              mtu_overhead self' = mtu_overhead self /\
              kernel_packet_class self' = kernel_packet_class self /\
              closed self' = closed self /\
              default_read_size self' = default_read_size self /\
              file_closed (sock self') = false /\
              (channel_invariant self = true ->
               channel_invariant self' = true)).
    { intros f r Hf. cbn [fst snd set_sock iface mode_tun strip_packet_info
        mtu_overhead kernel_packet_class closed default_read_size sock].
      repeat split; [exact Hf|].
      unfold channel_invariant.
      cbn [set_sock mtu_overhead kernel_packet_class closed sock].
      rewrite Hc, Hf. auto. }
    destruct (_ <? 0); cbn [time_time];
      destruct ((mtu_overhead self >? 0) && strip_packet_info self);
      try match goal with
          | |- context [header_payload_class ?c ?h] =>
              destruct (header_payload_class c h)
          end;
      match goal with
      | |- context [(?w1, set_sock self ?f, ?r)] =>
          apply (Hgoal f (w1, r) eq_refl)
      end.
Qed.

(** X6.  The overhead of a constructed channel is decided by the platform
    and the mode or the name alone: on Linux it is 4 in Tun mode and 0 in Tap
    mode, elsewhere it is 4 for a name that begins with "utun" and 0 for any
    other. *)
Theorem init_overhead
  (w w' : World) (iface_arg : option bytes) (mode_arg : option bool)
  (read_size : Z) (strip : bool) (obj : TunTapInterface) :
  __init__ w iface_arg mode_arg read_size strip = (w', Ok obj) ->
  mtu_overhead obj =
  if LINUX then (if mode_tun obj then 4 else 0)
  else if startswith (iface obj) (bstr "utun") then 4 else 0.
Proof.
  intros Hinit.
  destruct (init_returns_resolved _ _ _ _ _ _ _ Hinit) as (mode & _ & Hdev).
  clear Hinit. unfold open_device in Hdev.
  destruct LINUX.
  - rewrite open_linux_run in Hdev. cbv zeta in Hdev.
    destruct (os_open _); [|discriminate].
    destruct (os_ioctl _ _); [|discriminate].
    injection Hdev as _ <-. reflexivity.
  - destruct BSD; [|discriminate].
    rewrite open_bsd_run in Hdev.
    destruct (negb (_ || _ || _)); [discriminate|].
    destruct (startswith _ (bstr "utun")) eqn:Eu.
    + destruct (negb (utf8_valid _)); [discriminate|].
      destruct os_socket; [|discriminate]. cbv zeta in Hdev.
      destruct (os_ioctl _ _); [|discriminate].
      destruct (re_match_number _); [|discriminate].
      destruct (os_connect _ _); [|discriminate].
      injection Hdev as _ <-. cbn [mtu_overhead iface]. rewrite Eu.
      reflexivity.
    + destruct (os_open _); [|discriminate].
      injection Hdev as _ <-. cbn [mtu_overhead iface]. rewrite Eu.
      reflexivity.
Qed.

Lemma linux_name_short (name : bytes) :
  len name <= LINUX_IFNAMSIZ -> linux_name name = name.
Proof.
  intros H. unfold linux_name.
  destruct (len name >? LINUX_IFNAMSIZ) eqn:E; [|reflexivity].
  apply Z.gtb_lt in E. lia.
Qed.

Lemma StrFixedLenField_build_short (n : Z) (val : bytes) :
  len val <= n ->
  StrFixedLenField_build n val
  = val ++ repeat x00 (Z.to_nat n - List.length val).
Proof.
  intros H. unfold StrFixedLenField_build, slice_to, len in *.
  rewrite firstn_all2 by lia. reflexivity.
Qed.

Lemma len_linux_request (name : bytes) (mode : bool) :
  len (linux_request name mode) = 18.
Proof.
  unfold linux_request. rewrite len_app, len_StrFixedLenField_build by lia.
  unfold len. destruct native; rewrite ?length_rev, length_le_bytes;
    reflexivity.
Qed.

(** X7.  On Linux a name of at most 16 bytes is kept as it is: no truncation
    warning is given, the object carries the name unchanged, and the request
    is 18 bytes, the name followed by zero bytes up to 16 and the two bytes
    of the flags of the mode. *)
Theorem linux_short_name_kept
  (w : World) (iface_arg : option bytes) (mode_arg : option bool)
  (read_size : Z) (strip mode : bool) :
  LINUX = true ->
  resolve_mode (interface_name iface_arg) mode_arg = Ok mode ->
  len (interface_name iface_arg) <= LINUX_IFNAMSIZ ->
  let name := interface_name iface_arg in
  let '(w', res) := __init__ w iface_arg mode_arg read_size strip in
  let new := events_since w w' in
  ~ In truncation_warning (warnings new) /\
  (forall req, In req (ioctl_args new) ->
     LinuxTunIfReq_name req = name ++ repeat x00 (16 - List.length name) /\
     LinuxTunIfReq_flags req = linux_flags mode /\
     len req = 18) /\
  (forall obj, res = Ok obj -> iface obj = name).
Proof.
  intros HL Hm Hshort. cbv zeta.
  rewrite (init_linux _ _ _ _ _ _ HL Hm), open_linux_run. cbv zeta.
  set (name := interface_name iface_arg) in *.
  assert (Hle : (len name >? LINUX_IFNAMSIZ) = false).
  { destruct (len name >? LINUX_IFNAMSIZ) eqn:E; [|reflexivity].
    apply Z.gtb_lt in E. lia. }
  assert (Hreq : LinuxTunIfReq_name (linux_request name mode)
                 = name ++ repeat x00 (16 - List.length name)).
  { rewrite LinuxTunIfReq_name_request, linux_name_short by exact Hshort.
    apply StrFixedLenField_build_short. exact Hshort. }
  assert (Hwarn : ~ In truncation_warning
                      ((if mode then [] else [tap_warning]) ++ [] ++ [])).
  { destruct mode; cbn; intros H;
      repeat (destruct H as [H|H]; try discriminate H); exact H. }
  destruct (os_open (bstr "/dev/net/tun")) as [f|e];
    rewrite events_since_app, warnings_linux, ioctl_args_linux, Hle;
    cbn [warnings ioctl_args].
  - split; [exact Hwarn|]. split.
    + intros req [<-|[]]. split; [exact Hreq|].
      split; [apply LinuxTunIfReq_flags_request|apply len_linux_request].
    + intros obj H. destruct (os_ioctl _ _); [|discriminate].
      injection H as <-. cbn [iface]. apply linux_name_short. exact Hshort.
  - split; [exact Hwarn|]. split; [intros req []|discriminate].
Qed.

(** X8.  On Linux a failure of the operating system is the failure of
    construction: when [open] raises, the exception is the outcome and no
    request is sent; when [open] returns and [ioctl] raises, that exception
    is the outcome.  No object is returned either way. *)
Theorem linux_open_failure_is_fatal
  (w : World) (iface_arg : option bytes) (mode_arg : option bool)
  (read_size : Z) (strip mode : bool) (e : exn) :
  LINUX = true ->
  resolve_mode (interface_name iface_arg) mode_arg = Ok mode ->
  os_open (bstr "/dev/net/tun") = Raise e \/
  (exists f, os_open (bstr "/dev/net/tun") = Ok f /\
             os_ioctl LINUX_TUNSETIFF
               (linux_request (interface_name iface_arg) mode) = Raise e) ->
  let '(w', res) := __init__ w iface_arg mode_arg read_size strip in
  res = Raise e /\
  (os_open (bstr "/dev/net/tun") = Raise e ->
   ioctl_args (events_since w w') = []).
Proof.
  intros HL Hm Hfail. cbv zeta.
  rewrite (init_linux _ _ _ _ _ _ HL Hm), open_linux_run. cbv zeta.
  destruct Hfail as [Hopen | (f & Hopen & Hioctl)]; rewrite Hopen.
  - split; [reflexivity|]. intros _.
    rewrite events_since_app, ioctl_args_linux. reflexivity.
  - rewrite Hioctl. split; [reflexivity|discriminate].
Qed.

Lemma init_bsd (w : World) (iface_arg : option bytes)
  (mode_arg : option bool) (read_size : Z) (strip mode : bool) :
  LINUX = false ->
  BSD = true ->
  resolve_mode (interface_name iface_arg) mode_arg = Ok mode ->
  __init__ w iface_arg mode_arg read_size strip =
  open_bsd w (interface_name iface_arg) mode strip read_size.
Proof.
  intros HL HB Hm. rewrite (init_resolved _ _ _ _ _ _ Hm).
  unfold open_device. rewrite HL, HB. reflexivity.
Qed.

(** X9.  On BSD and Darwin a name that begins with none of "tap", "tun" and
    "utun" is refused even when the mode is given: construction fails with
    the [ValueError] of line 214 before any system call. *)
Theorem bsd_name_check
  (w : World) (iface_arg : option bytes) (m : bool) (read_size : Z)
  (strip : bool) :
  LINUX = false ->
  BSD = true ->
  startswith (interface_name iface_arg) (bstr "tap") = false ->
  startswith (interface_name iface_arg) (bstr "tun") = false ->
  startswith (interface_name iface_arg) (bstr "utun") = false ->
  __init__ w iface_arg (Some m) read_size strip = (w, Raise InvalidNameError).
Proof.
  intros HL HB H1 H2 H3.
  rewrite (init_bsd w iface_arg (Some m) read_size strip m HL HB eq_refl).
  rewrite open_bsd_run, H1, H2, H3. reflexivity.
Qed.

(** X10.  On BSD and Darwin a "tun" or "tap" name that is not a "utun" name
    is opened as the device file of that name under /dev: one [open], no
    control request, no overhead, and the kernel packet class is [IPv46] in
    Tun mode and [Ether] in Tap mode. *)
Theorem bsd_device_file
  (w : World) (iface_arg : option bytes) (mode_arg : option bool)
  (read_size : Z) (strip mode : bool) :
  LINUX = false ->
  BSD = true ->
  resolve_mode (interface_name iface_arg) mode_arg = Ok mode ->
  startswith (interface_name iface_arg) (bstr "utun") = false ->
  startswith (interface_name iface_arg) (bstr "tap") = true \/
  startswith (interface_name iface_arg) (bstr "tun") = true ->
  let name := interface_name iface_arg in
  __init__ w iface_arg mode_arg read_size strip =
  (mkWorld (trace w ++ [EvOpen (bstr "/dev/" ++ name)]) (ticks w),
   match os_open (bstr "/dev/" ++ name) with
   | Ok f =>
       Ok (mkTunTapInterface name mode strip 0
             (if mode then IPv46 else Ether) false read_size f)
   | Raise e => Raise e
   end).
Proof.
  intros HL HB Hm Hu Hp. cbv zeta.
  rewrite (init_bsd _ _ _ _ _ _ HL HB Hm), open_bsd_run, Hu.
  replace (startswith (interface_name iface_arg) (bstr "tap")
           || startswith (interface_name iface_arg) (bstr "tun") || false)
    with true
    by (destruct Hp as [-> | ->]; rewrite ?orb_true_r; reflexivity).
  cbn [negb]. destruct (os_open _); reflexivity.
Qed.

(** X11.  The handshake of a [utun] interface: for a well-formed name with
    interface number [num], when the control socket opens, the control query
    is answered and the connection is accepted, construction creates the
    socket, queries the control identifier with the 100-byte request,
    connects to (identifier, [num] + 1) and wraps the socket, in this order,
    and returns a channel with overhead 4 over [MacOSUtunPacketInfo]. *)
Theorem bsd_utun_handshake
  (w : World) (iface_arg : option bytes) (mode_arg : option bool)
  (read_size : Z) (strip mode : bool) (num : Z) (rawSocket : File)
  (ctl_info : bytes) :
  LINUX = false ->
  BSD = true ->
  resolve_mode (interface_name iface_arg) mode_arg = Ok mode ->
  startswith (interface_name iface_arg) (bstr "utun") = true ->
  utf8_valid (interface_name iface_arg) = true ->
  re_match_number (interface_name iface_arg) = Some num ->
  os_socket = Ok rawSocket ->
  os_ioctl DARWIN_CTLIOCGINFO MacOSTunIfReq_build = Ok ctl_info ->
  os_connect (MacOSTunIfReq_ctl_id ctl_info) (num + 1) = Ok tt ->
  __init__ w iface_arg mode_arg read_size strip =
  (mkWorld
     (trace w ++ [EvSocket; EvIoctl DARWIN_CTLIOCGINFO MacOSTunIfReq_build;
                  EvConnect (MacOSTunIfReq_ctl_id ctl_info) (num + 1);
                  EvMakefile])
     (ticks w),
   Ok (mkTunTapInterface (interface_name iface_arg) mode strip 4
         MacOSUtunPacketInfo false read_size rawSocket)).
Proof.
  intros HL HB Hm Hu Hutf Hnum Hsock Hioctl Hconn.
  rewrite (init_bsd _ _ _ _ _ _ HL HB Hm), open_bsd_run.
  rewrite Hu, orb_true_r, Hutf, Hsock. cbn [negb]. cbv zeta.
  rewrite Hioctl, Hnum, Hconn. reflexivity.
Qed.

(** X12.  A [utun] name that carries no interface number makes construction
    fail with [UnboundLocalError] on [interfaceNum], and only after the
    control socket has been created and queried: nothing is connected and no
    object is returned. *)
Theorem bsd_utun_without_number
  (w : World) (iface_arg : option bytes) (mode_arg : option bool)
  (read_size : Z) (strip mode : bool) (rawSocket : File) (ctl_info : bytes) :
  LINUX = false ->
  BSD = true ->
  resolve_mode (interface_name iface_arg) mode_arg = Ok mode ->
  startswith (interface_name iface_arg) (bstr "utun") = true ->
  utf8_valid (interface_name iface_arg) = true ->
  re_match_number (interface_name iface_arg) = None ->
  os_socket = Ok rawSocket ->
  os_ioctl DARWIN_CTLIOCGINFO MacOSTunIfReq_build = Ok ctl_info ->
  __init__ w iface_arg mode_arg read_size strip =
  (mkWorld
     (trace w ++ [EvSocket; EvIoctl DARWIN_CTLIOCGINFO MacOSTunIfReq_build])
     (ticks w),
   Raise (UnboundLocalError "interfaceNum")).
Proof.
  intros HL HB Hm Hu Hutf Hnum Hsock Hioctl.
  rewrite (init_bsd _ _ _ _ _ _ HL HB Hm), open_bsd_run.
  rewrite Hu, orb_true_r, Hutf, Hsock. cbn [negb]. cbv zeta.
  rewrite Hioctl, Hnum. reflexivity.
Qed.

(** X13.  Where neither the Linux nor the BSD branch applies, construction
    never returns an object and does nothing to the outside: it fails with
    the ambiguous-mode [ValueError] when the mode cannot be told, and with
    [NotImplementedError] otherwise. *)
Theorem unsupported_platform
  (w : World) (iface_arg : option bytes) (mode_arg : option bool)
  (read_size : Z) (strip : bool) :
  LINUX = false ->
  BSD = false ->
  __init__ w iface_arg mode_arg read_size strip =
  (w, Raise (match resolve_mode (interface_name iface_arg) mode_arg with
             | Ok _ => UnsupportedPlatformError
             | Raise e => e
             end)) /\
  (forall w' obj,
     __init__ w iface_arg mode_arg read_size strip <> (w', Ok obj)).
Proof.
  intros HL HB.
  assert (H : __init__ w iface_arg mode_arg read_size strip =
              (w, Raise (match resolve_mode (interface_name iface_arg)
                                 mode_arg with
                         | Ok _ => UnsupportedPlatformError
                         | Raise e => e
                         end))).
  { unfold __init__. fold (interface_name iface_arg).
    destruct (resolve_mode _ _); [|reflexivity].
    unfold open_device. rewrite HL, HB. reflexivity. }
  split; [exact H|]. intros w' obj. rewrite H. discriminate.
Qed.

(** *** Further properties of the wire structures *)

Lemma is_digit_range (d : byte) :
  is_digit d = true -> 48 <= Z_of_byte d <= 57.
Proof.
  unfold is_digit, in_range. intros H.
  apply andb_true_iff in H. destruct H as [H1 H2].
  apply Z.leb_le in H1, H2. lia.
Qed.

Lemma in_range_outside (d : byte) (lo hi : Z) :
  Z_of_byte d < lo \/ hi < Z_of_byte d -> in_range d lo hi = false.
Proof.
  intros H. unfold in_range. apply andb_false_iff.
  destruct H; [left; apply Z.leb_gt|right; apply Z.leb_gt]; lia.
Qed.

Lemma skip_letters_letter (c : byte) (s : bytes) :
  is_ascii_letter c = true -> skip_letters (c :: s) = skip_letters s.
Proof. intros H. cbn [skip_letters]. rewrite H. reflexivity. Qed.

Lemma skip_letters_digit (d : byte) (s : bytes) :
  is_digit d = true -> skip_letters (d :: s) = d :: s.
Proof.
  intros H. apply is_digit_range in H.
  assert (H1 : is_ascii_letter d = false).
  { unfold is_ascii_letter.
    rewrite !in_range_outside by lia. reflexivity. }
  assert (H2 : in_range d 0xc4 0xc4 = false) by (apply in_range_outside; lia).
  assert (H3 : in_range d 0xc5 0xc5 = false) by (apply in_range_outside; lia).
  assert (H4 : in_range d 0xe2 0xe2 = false) by (apply in_range_outside; lia).
  destruct s as [|c2 [|c3 s3]]; cbn [skip_letters];
    rewrite ?H1, ?H2, ?H3, ?H4; reflexivity.
Qed.

Lemma take_digits_app (ds rest : bytes) :
  forallb is_digit ds = true ->
  take_digits rest = [] ->
  take_digits (ds ++ rest) = ds.
Proof.
  intros Hds Hrest. induction ds as [|d ds IH]; [exact Hrest|].
  cbn [forallb] in Hds. apply andb_true_iff in Hds. destruct Hds as [Hd Hds].
  cbn [app take_digits]. rewrite Hd, (IH Hds). reflexivity.
Qed.

Lemma int_of_digits_snoc (ds : bytes) (d : byte) :
  int_of_digits (ds ++ [d]) = 10 * int_of_digits ds + (Z_of_byte d - 48).
Proof. unfold int_of_digits. rewrite fold_left_app. reflexivity. Qed.

(** X14.  The interface number of a name "utun" followed by decimal digits
    is the number those digits write in base ten, whatever follows them. *)
Theorem utun_number_parsed (ds rest : bytes) :
  ds <> [] ->
  forallb is_digit ds = true ->
  take_digits rest = [] ->
  re_match_number (bstr "utun" ++ ds ++ rest) = Some (int_of_digits ds) /\
  (forall d, int_of_digits (ds ++ [d])
             = 10 * int_of_digits ds + (Z_of_byte d - 48)).
Proof.
  intros Hne Hds Hrest. split; [|intros d; apply int_of_digits_snoc].
  destruct ds as [|d ds]; [contradiction|].
  pose proof Hds as Hall.
  cbn [forallb] in Hds. apply andb_true_iff in Hds. destruct Hds as [Hd _].
  unfold re_match_number.
  change (bstr "utun" ++ (d :: ds) ++ rest)
    with (x75 :: x74 :: x75 :: x6e :: d :: ds ++ rest).
  rewrite !skip_letters_letter by reflexivity.
  rewrite skip_letters_digit by exact Hd.
  replace (len (d :: ds ++ rest)
           =? len (x75 :: x74 :: x75 :: x6e :: d :: ds ++ rest)) with false
    by (symmetry; apply Z.eqb_neq; unfold len; cbn [List.length]; lia).
  change (d :: ds ++ rest) with ((d :: ds) ++ rest).
  rewrite take_digits_app by assumption. reflexivity.
Qed.

(** X15.  The control identifier is read back from the first four bytes of
    the reply, least significant byte first, whatever the control name that
    follows, and the request sent is 100 bytes long. *)
Theorem ctl_id_roundtrip (v : Z) (ctl_name : bytes) :
  0 <= v < 2 ^ 32 ->
  MacOSTunIfReq_ctl_id (le_bytes 4 v ++ ctl_name) = v /\
  len MacOSTunIfReq_build = 100.
Proof.
  intros H. split; [|reflexivity].
  unfold MacOSTunIfReq_ctl_id.
  rewrite (slice_to_app_len _ _ 4)
    by (unfold len; rewrite length_le_bytes; reflexivity).
  apply le_value_le_bytes. exact H.
Qed.

(** X16.  A [utun] header round trip: for an address family of 32 bits the
    header built is four bytes that dissect to it, and a stripped [recv_raw]
    over a frame so headed returns the payload bytes with the class of that
    address family, or fails when the family is neither IPv4 nor IPv6. *)
Theorem utun_header_roundtrip
  (w : World) (self : TunTapInterface) (h : utun_pi) (payload rest : bytes) :
  0 <= addr_family h < 2 ^ 32 ->
  kernel_packet_class self = MacOSUtunPacketInfo ->
  mtu_overhead self = 4 ->
  strip_packet_info self = true ->
  file_closed (sock self) = false ->
  exists hdr,
    MacOSUtunPacketInfo_build h = Ok hdr /\
    len hdr = 4 /\
    MacOSUtunPacketInfo_dissect hdr = h /\
    (pending (sock self) = hdr ++ payload ++ rest ->
     snd (recv_raw w self (Some (len payload))) =
     match MacOSUtunPacketInfo_guess_payload_class h with
     | Ok cls => Ok (cls, payload, clock (ticks w))
     | Raise e => Raise e
     end).
Proof.
  intros Haf Hcls Hov Hstrip Hopen.
  destruct (struct_pack_in_range IntField_order 4 (addr_family h))
    as [hdr Ehdr]; [exact Haf|].
  pose proof (struct_pack_length _ _ _ _ Ehdr) as Lh.
  change (Z.of_nat 4) with 4 in Lh.
  assert (Hd : MacOSUtunPacketInfo_dissect hdr = h).
  { unfold MacOSUtunPacketInfo_dissect.
    replace (slice_to hdr 4) with hdr
      by (symmetry; unfold slice_to; apply firstn_all2;
          unfold len in Lh; lia).
    rewrite (struct_unpack_pack _ _ _ _ Ehdr). destruct h; reflexivity. }
  exists hdr. unfold MacOSUtunPacketInfo_build.
  split; [exact Ehdr|]. split; [exact Lh|]. split; [exact Hd|].
  intros Hpending. pose proof (len_nonneg payload) as Hp.
  rewrite recv_raw_open
    by (try assumption; unfold requested_size; rewrite ?Hov; lia).
  rewrite Hov, Hstrip, Hcls, Hpending. unfold requested_size.
  cbn [Z.gtb Z.compare andb snd].
  rewrite app_assoc.
  replace (len payload + 4) with (len (hdr ++ payload))
    by (rewrite len_app; lia).
  rewrite slice_to_app.
  rewrite (slice_to_app_len _ _ 4) by exact Lh.
  rewrite (slice_from_app_len _ _ 4) by exact Lh.
  rewrite header_payload_class_utun by exact Lh.
  rewrite Hd. destruct (MacOSUtunPacketInfo_guess_payload_class h);
    reflexivity.
Qed.

(** X17.  The Linux request round trip: flags of 16 bits are serialized
    behind the 16-byte name field into 18 bytes and read back unchanged, and
    the name field read back is the name cut or padded to 16 bytes. *)
Theorem LinuxTunIfReq_roundtrip (name : bytes) (ifru_flags : Z) :
  0 <= ifru_flags < 65536 ->
  exists req,
    LinuxTunIfReq_build name ifru_flags = Ok req /\
    len req = 18 /\
    LinuxTunIfReq_flags req = ifru_flags /\
    LinuxTunIfReq_name req = StrFixedLenField_build 16 name.
Proof.
  intros H. unfold LinuxTunIfReq_build.
  destruct (struct_pack_in_range native 2 ifru_flags) as [fl Efl];
    [change (256 ^ Z.of_nat 2) with 65536; lia|].
  rewrite Efl. eexists. split; [reflexivity|].
  pose proof (struct_pack_length _ _ _ _ Efl) as Lfl.
  change (Z.of_nat 2) with 2 in Lfl.
  assert (Ln : len (StrFixedLenField_build 16 name) = 16)
    by (apply len_StrFixedLenField_build; lia).
  split; [rewrite len_app; lia|]. split.
  - unfold LinuxTunIfReq_flags.
    rewrite (slice_from_app_len _ _ 16) by exact Ln.
    apply (struct_unpack_pack _ _ _ _ Efl).
  - unfold LinuxTunIfReq_name. apply slice_to_app_len. exact Ln.
Qed.

(** *** Further properties of sending *)

Lemma ticks_send_write (w : World) (self : TunTapInterface) (sx : bytes) :
  ticks (fst (send_write w self sx)) = ticks w.
Proof.
  unfold send_write, file_write, file_flush.
  destruct (file_closed (sock self)); [reflexivity|].
  destruct (os_write w sx) as [r|e]; [reflexivity|].
  destruct (is_socket_error e); reflexivity.
Qed.

(** X18.  A frame without a [sent_time] attribute is sent without reading
    the clock and is left as it was: what is written is the serialization of
    that frame, wrapped as the channel requires. *)
Theorem send_without_sent_time
  (w : World) (self : TunTapInterface) (x : Frame) :
  hasattr_sent_time x = false ->
  let '(w', x', res) := send w self x in
  x' = x /\
  ticks w' = ticks w /\
  (w', res) = send_write w self (raw (send_wrap self x)).
Proof.
  intros Hattr. cbv zeta. unfold send, send_stamp. rewrite Hattr.
  pose proof (ticks_send_write w self (raw (send_wrap self x))) as Ht.
  destruct (send_write w self _) as [w2 r]. cbn [fst] in Ht.
  split; [reflexivity|]. split; [exact Ht|reflexivity].
Qed.

(** X19.  Only socket errors are caught: when the write raises anything
    else, [send] raises it in turn, logs nothing and does not flush. *)
Theorem send_raises_other_errors
  (w : World) (self : TunTapInterface) (x : Frame) (e : exn) :
  file_closed (sock self) = false ->
  os_write (fst (send_stamp w x))
    (raw (send_wrap self (snd (send_stamp w x)))) = Raise e ->
  is_socket_error e = false ->
  let sx := raw (send_wrap self (snd (send_stamp w x))) in
  let '(w', _, res) := send w self x in
  res = Raise e /\ events_since w w' = [EvWrite sx].
Proof.
  intros Hopen Hwrite Hsock. cbv zeta. unfold send.
  pose proof (trace_send_stamp w x) as Htr.
  destruct (send_stamp w x) as [w1 x1]. cbn [fst snd] in *.
  rewrite send_write_open by exact Hopen.
  rewrite Hwrite, Hsock.
  rewrite events_since_same_trace by exact Htr. split; reflexivity.
Qed.

(** *** Construction and use together *)

(** X20.  A channel constructed on Linux in Tap mode, or in Tun mode with
    stripping turned off, returns from [recv_raw] everything it read under
    its own kernel packet class: [Ether] and the requested size in Tap mode,
    [LinuxTunPacketInfo] and four bytes more in Tun mode. *)
Theorem linux_channel_recv_unstripped
  (w w' w2 : World) (iface_arg : option bytes) (mode_arg : option bool)
  (read_size : Z) (strip : bool) (obj : TunTapInterface) (x : option Z) :
  LINUX = true ->
  __init__ w iface_arg mode_arg read_size strip = (w', Ok obj) ->
  file_closed (sock obj) = false ->
  0 <= requested_size obj x ->
  mode_tun obj = false \/ strip = false ->
  snd (recv_raw w2 obj x) =
  Ok (if mode_tun obj then LinuxTunPacketInfo else Ether,
      slice_to (pending (sock obj))
        (requested_size obj x + (if mode_tun obj then 4 else 0)),
      clock (ticks w2)).
Proof.
  intros HL Hinit Hopen HN Hcase.
  destruct (init_returns_resolved _ _ _ _ _ _ _ Hinit) as (mode & Hm & _).
  rewrite (init_linux _ _ _ _ _ _ HL Hm), open_linux_run in Hinit.
  cbv zeta in Hinit.
  destruct (os_open _) as [f|e]; [|discriminate].
  destruct (os_ioctl _ _); [|discriminate].
  injection Hinit as _ <-.
  cbn [mode_tun sock file_closed] in *.
  rewrite recv_raw_whole; cbn [sock file_closed mtu_overhead
    strip_packet_info kernel_packet_class pending snd];
    try assumption.
  - destruct mode; reflexivity.
  - destruct mode; lia.
  - destruct mode; [|left; lia].
    destruct Hcase as [Hc | ->]; [discriminate|right; reflexivity].
Qed.


End TunTap.

(** ** The module on the sample platform *)

Local Abbreviation sample_recv_raw :=
  (recv_raw false Sample.AF_INET Sample.AF_INET6 BigEndian
     Sample.Ether_payload_guess Sample.library_guess_payload_class
     Sample.clock).

Local Abbreviation sample_init LINUX BSD :=
  (__init__ LINUX BSD false (bstr "eth0") Sample.os_open Sample.os_ioctl
     Sample.os_socket Sample.os_connect).

Local Abbreviation sample_send os_write :=
  (send Sample.raw Sample.div Sample.clock os_write).

(** "tun0" is a Tun interface, "tap3" a Tap interface, and the default
    interface "eth0" is neither. *)
Example init_tun0 :
  exists w' obj,
    sample_init true false Sample.w0 (Some (bstr "tun0")) None 1500 true
    = (w', Ok obj) /\
    mode_tun obj = true /\ mtu_overhead obj = 4 /\
    kernel_packet_class obj = LinuxTunPacketInfo.
Proof. eexists _, _. vm_compute. repeat split. Qed.

Example init_tap3 :
  exists w' obj,
    sample_init true false Sample.w0 (Some (bstr "tap3")) None 1500 false
    = (w', Ok obj) /\
    mode_tun obj = false /\ mtu_overhead obj = 0 /\
    strip_packet_info obj = true /\ kernel_packet_class obj = Ether.
Proof. eexists _, _. vm_compute. repeat split. Qed.

Example init_eth0 :
  sample_init true false Sample.w0 None None 1500 true
  = (Sample.w0, Raise (AmbiguousModeError (bstr "eth0"))).
Proof. reflexivity. Qed.

Example init_utun3 :
  exists w' obj,
    sample_init false true Sample.w0 (Some (bstr "utun3")) None 1500 true
    = (w', Ok obj) /\
    mode_tun obj = true /\ mtu_overhead obj = 4 /\
    kernel_packet_class obj = MacOSUtunPacketInfo /\
    In (EvConnect 0 4) (trace w').
Proof.
  eexists _, _. vm_compute. repeat split. right. right. left. reflexivity.
Qed.

Example init_unsupported_platform :
  sample_init false false Sample.w0 (Some (bstr "tun0")) None 1500 true
  = (Sample.w0, Raise UnsupportedPlatformError).
Proof. reflexivity. Qed.

(** A bare payload sent over a BSD tun device file goes out under a default
    [IP] header: the first byte written is 0x45. *)
Example send_bare_payload_as_ip :
  sample_send Sample.os_write Sample.w0 (Sample.bsd_tun []) Sample.arp_packet
  = (mkWorld
       [EvWrite (Sample.default_header IP ++ [x00; x01; x08; x00]); EvFlush]
       1,
     set_sent_time Sample.arp_packet 1700000000,
     Ok (Some 24)).
Proof. reflexivity. Qed.

(** C1, as stated, at a [utun] channel whose next header carries the address
    family 99: the channel has overhead 4 and strips headers, the stream
    supplies the 3 + 4 bytes asked for, one read of 7 bytes is performed, and
    no payload is returned: [recv] fails. *)
Lemma recv_raw_utun_unknown_family_fails :
  let self := Sample.utun [x00; x00; x00; x63; x01; x02; x03] in
  mtu_overhead self = 4 /\
  strip_packet_info self = true /\
  file_closed (sock self) = false /\
  3 + 4 <= len (pending (sock self)) /\
  sample_recv_raw Sample.w0 self (Some 3)
  = (mkWorld [EvRead 7] 1, Sample.utun [],
     Raise UnsupportedAddressFamilyError) /\
  (forall cls payload t,
     snd (sample_recv_raw Sample.w0 self (Some 3)) <> Ok (cls, payload, t)).
Proof.
  cbv zeta. repeat split; try (vm_compute; discriminate).
Qed.

(** C5, as stated, at a tap name of 20 bytes on Linux: the name is cut to
    its first 16 bytes and the object is constructed, but two warnings are
    given, not one: the warning of Tap mode and the truncation warning. *)
Lemma linux_long_tap_name_two_warnings :
  let name := bstr "tap0123456789abcdefg" in
  len name = 20 /\
  exists w' obj,
    sample_init true false Sample.w0 (Some name) None 1500 true
    = (w', Ok obj) /\
    iface obj = bstr "tap0123456789abc" /\
    warnings (events_since Sample.w0 w') = [tap_warning; truncation_warning] /\
    List.length (warnings (events_since Sample.w0 w')) <> 1%nat.
Proof.
  cbv zeta. split; [reflexivity|].
  eexists _, _. split; [reflexivity|].
  split; [reflexivity|]. split; [reflexivity|].
  vm_compute. discriminate.
Qed.

(** *** The theorems at concrete inputs *)

Lemma recv_raw_reads_size_plus_overhead_witness :
  let self := Sample.linux_tun Sample.device_input in
  (mtu_overhead self = 4 /\ strip_packet_info self = true /\
   file_closed (sock self) = false /\ 0 <= requested_size self (Some 4)) /\
  trace (fst (fst (sample_recv_raw Sample.w0 self (Some 4)))) = [EvRead 8] /\
  snd (sample_recv_raw Sample.w0 self (Some 4))
  = Ok (IP, [x45; x00; x00; x14], 1700000000).
Proof.
  cbv zeta. split.
  - repeat split. vm_compute. discriminate.
  - generalize (recv_raw_reads_size_plus_overhead false Sample.AF_INET
                  Sample.AF_INET6 BigEndian Sample.Ether_payload_guess
                  Sample.library_guess_payload_class Sample.clock Sample.w0
                  (Sample.linux_tun Sample.device_input) (Some 4)
                  eq_refl eq_refl eq_refl
                  ltac:(vm_compute; discriminate)).
    cbv zeta.
    destruct (sample_recv_raw Sample.w0 (Sample.linux_tun Sample.device_input)
                (Some 4)) as [[w' self'] res].
    intros [Htrace Hrest]. split; [exact Htrace|].
    destruct (Hrest ltac:(vm_compute; discriminate)) as (_ & Hres & _).
    exact Hres.
Defined.

Lemma utun_recv_payload_class_witness :
  let self := Sample.utun [x00; x00; x00; x02; x45; x00] in
  (Sample.AF_INET <> Sample.AF_INET6 /\
   kernel_packet_class self = MacOSUtunPacketInfo /\
   mtu_overhead self = 4 /\ strip_packet_info self = true /\
   file_closed (sock self) = false /\ 0 <= requested_size self (Some 2) /\
   4 <= len (pending (sock self))) /\
  snd (sample_recv_raw Sample.w0 self (Some 2))
  = Ok (IP, [x45; x00], 1700000000).
Proof.
  cbv zeta. split.
  - repeat split; vm_compute; discriminate.
  - apply (utun_recv_payload_class false Sample.AF_INET Sample.AF_INET6
             BigEndian Sample.Ether_payload_guess
             Sample.library_guess_payload_class Sample.clock Sample.w0
             (Sample.utun [x00; x00; x00; x02; x45; x00]) (Some 2)
             ltac:(discriminate) eq_refl eq_refl eq_refl eq_refl
             ltac:(vm_compute; discriminate)
             ltac:(vm_compute; discriminate)).
    reflexivity.
Defined.

Lemma tun_header_roundtrip_witness :
  let h := mk_tun_pi 0 0x0800 in
  let payload := [x45; x00; x00; x14] in
  let self := Sample.linux_tun Sample.device_input in
  (0 <= flags h < 65536 /\ 0 <= type h < 65536 /\
   kernel_packet_class self = LinuxTunPacketInfo /\ mtu_overhead self = 4 /\
   strip_packet_info self = true /\ file_closed (sock self) = false) /\
  LinuxTunPacketInfo_attach false h payload = Ok Sample.device_input /\
  snd (sample_recv_raw Sample.w0 self (Some (len payload)))
  = Ok (IP, payload, 1700000000).
Proof.
  cbv zeta. split.
  - repeat split; vm_compute; discriminate.
  - destruct (tun_header_roundtrip false Sample.AF_INET Sample.AF_INET6
                BigEndian Sample.Ether_payload_guess
                Sample.library_guess_payload_class Sample.clock Sample.w0
                (Sample.linux_tun Sample.device_input) (mk_tun_pi 0 0x0800)
                [x45; x00; x00; x14] []
                ltac:(cbn; lia)
                ltac:(cbn; lia)
                eq_refl eq_refl eq_refl eq_refl)
      as (frame & Hattach & _ & _ & _ & Hrecv).
    split; [reflexivity|].
    assert (Hframe : frame = Sample.device_input)
      by (vm_compute in Hattach; injection Hattach as <-; reflexivity).
    subst frame. exact (Hrecv eq_refl).
Defined.

Lemma init_mode_from_name_witness :
  let name := bstr "tun0" in
  startswith name (bstr "tun") = true /\
  resolve_mode name None = Ok true /\
  sample_init true false Sample.w0 (Some name) None 1500 true
  = sample_init true false Sample.w0 (Some name) (Some true) 1500 true /\
  exists w' obj,
    sample_init true false Sample.w0 (Some name) None 1500 true
    = (w', Ok obj) /\
    mode_tun obj = true.
Proof.
  cbv zeta.
  destruct (init_mode_from_name true false false (bstr "eth0") Sample.os_open
              Sample.os_ioctl Sample.os_socket Sample.os_connect Sample.w0
              (Some (bstr "tun0")) 1500 true) as (Htun & _).
  destruct (Htun (or_introl eq_refl)) as (Hmode & _ & Hsame & _ & Hexists).
  split; [reflexivity|]. split; [exact Hmode|]. split; [exact Hsame|].
  exact (Hexists eq_refl _ _ eq_refl eq_refl).
Defined.

Lemma linux_long_name_truncated_witness :
  let name := bstr "tun0123456789abcdefg" in
  (true = true /\ resolve_mode (interface_name (bstr "eth0") (Some name)) None
                  = Ok true /\
   LINUX_IFNAMSIZ < len (interface_name (bstr "eth0") (Some name))) /\
  exists w' obj,
    sample_init true false Sample.w0 (Some name) None 1500 true = (w', Ok obj) /\
    iface obj = bstr "tun0123456789abc" /\
    len (iface obj) = 16 /\
    warnings (events_since Sample.w0 w') = [truncation_warning].
Proof.
  cbv zeta. split.
  - repeat split.
  - generalize (linux_long_name_truncated true false false (bstr "eth0")
                  Sample.os_open Sample.os_ioctl Sample.os_socket
                  Sample.os_connect Sample.w0
                  (Some (bstr "tun0123456789abcdefg")) None 1500 true true
                  eq_refl eq_refl eq_refl).
    cbv zeta.
    destruct (sample_init true false Sample.w0
                (Some (bstr "tun0123456789abcdefg")) None 1500 true)
      as [w' res] eqn:E.
    vm_compute in E. injection E as <- <-.
    intros (_ & Hwarn & _ & _ & Hobj & _).
    eexists _, _. split; [reflexivity|].
    destruct (Hobj _ eq_refl) as (Hiface & Hlen & _).
    split; [exact Hiface|]. split; [exact Hlen|exact Hwarn].
Defined.

Lemma linux_tap_forces_no_pi_witness :
  let name := bstr "tap3" in
  (true = true /\ resolve_mode (interface_name (bstr "eth0") (Some name)) None
                  = Ok false) /\
  exists w' obj,
    sample_init true false Sample.w0 (Some name) None 1500 false
    = (w', Ok obj) /\
    strip_packet_info obj = true /\
    In tap_warning (warnings (events_since Sample.w0 w')) /\
    (forall req, In req (ioctl_args (events_since Sample.w0 w')) ->
       LinuxTunIfReq_flags false req = 0x1002).
Proof.
  cbv zeta. split.
  - repeat split.
  - generalize (linux_tap_forces_no_pi true false false (bstr "eth0")
                  Sample.os_open Sample.os_ioctl Sample.os_socket
                  Sample.os_connect Sample.w0 (Some (bstr "tap3")) None 1500
                  false false eq_refl eq_refl).
    cbv zeta.
    destruct (sample_init true false Sample.w0 (Some (bstr "tap3")) None 1500
                false) as [w' res] eqn:E.
    vm_compute in E. injection E as <- <-.
    intros [Htap _]. destruct (Htap eq_refl) as (Hwarn & Hreq & Hobj).
    eexists _, _. split; [reflexivity|].
    destruct (Hobj _ eq_refl) as (Hstrip & _).
    split; [exact Hstrip|]. split; [exact Hwarn|].
    intros req Hin. exact (proj1 (Hreq req Hin)).
Defined.

Lemma closed_channel_fails_witness :
  let self := Sample.linux_tun Sample.device_input in
  let s1 := snd (close Sample.w0 self) in
  closed self = file_closed (sock self) /\
  sample_recv_raw Sample.w0 s1 None
  = (Sample.w0, s1, Raise ClosedChannelError) /\
  snd (sample_send Sample.os_write Sample.w0 s1 Sample.ip_packet)
  = Raise ClosedChannelError.
Proof.
  cbv zeta. split; [reflexivity|].
  destruct (closed_channel_fails false Sample.AF_INET Sample.AF_INET6
              BigEndian Sample.Ether_payload_guess
              Sample.library_guess_payload_class Sample.raw Sample.div
              Sample.clock Sample.os_write Sample.w0
              (Sample.linux_tun Sample.device_input) eq_refl)
    as (_ & Hrecv & Hsend & _).
  split; [apply Hrecv|apply Hsend].
Defined.

Lemma send_wraps_then_writes_witness :
  let self := Sample.bsd_tun [] in
  file_closed (sock self) = false /\
  events_since Sample.w0
    (fst (fst (sample_send Sample.os_write Sample.w0 self Sample.arp_packet)))
  = [EvWrite (Sample.default_header IP ++ [x00; x01; x08; x00]); EvFlush] /\
  snd (sample_send Sample.os_write Sample.w0 self Sample.arp_packet)
  = Ok (Some 24).
Proof.
  cbv zeta. split; [reflexivity|].
  generalize (send_wraps_then_writes Sample.raw Sample.div Sample.clock
                Sample.os_write Sample.w0 (Sample.bsd_tun [])
                Sample.arp_packet eq_refl).
  cbv zeta.
  destruct (send_stamp Sample.clock Sample.w0 Sample.arp_packet)
    as [w1 x1] eqn:Es.
  vm_compute in Es. injection Es as <- <-.
  destruct (sample_send Sample.os_write Sample.w0 (Sample.bsd_tun [])
              Sample.arp_packet) as [[w' x'] res].
  intros (_ & _ & _ & _ & Hwrite). exact Hwrite.
Defined.

Lemma send_write_error_logged_witness :
  let self := Sample.linux_tun [] in
  (file_closed (sock self) = false /\
   is_socket_error (OSError 5) = true) /\
  snd (sample_send Sample.os_write_failing Sample.w0 self Sample.bare_bytes)
  = Ok None /\
  events_since Sample.w0
    (fst (fst (sample_send Sample.os_write_failing Sample.w0 self
                 Sample.bare_bytes)))
  = [EvWrite [x00; x00; x90; x00; x68; x69];
     EvLogError "%s send" "TunTapInterface"].
Proof.
  cbv zeta. split; [split; reflexivity|].
  generalize (send_write_error_logged Sample.raw Sample.div Sample.clock
                Sample.os_write_failing Sample.w0 (Sample.linux_tun [])
                Sample.bare_bytes (OSError 5) eq_refl eq_refl eq_refl).
  cbv zeta.
  destruct (sample_send Sample.os_write_failing Sample.w0
              (Sample.linux_tun []) Sample.bare_bytes) as [[w' x'] res].
  intros H. exact H.
Defined.

Lemma send_sets_sent_time_witness :
  hasattr_sent_time Sample.ip_packet = true /\
  snd (fst (sample_send Sample.os_write Sample.w0 (Sample.linux_tun [])
              Sample.ip_packet))
  = mkFrame IP (Some (Some 1700000000)) [x45; x00; x00; x14].
Proof.
  split; [reflexivity|].
  apply (send_sets_sent_time Sample.raw Sample.div Sample.clock
           Sample.os_write Sample.w0 (Sample.linux_tun []) Sample.ip_packet
           eq_refl).
Defined.
(** *** The further properties at concrete inputs *)

Lemma recv_raw_unstripped_witness :
  let self := Sample.bsd_tun Sample.device_input in
  (file_closed (sock self) = false /\
   0 <= requested_size self (Some 4) + mtu_overhead self /\
   (mtu_overhead self <= 0 \/ strip_packet_info self = false)) /\
  snd (sample_recv_raw Sample.w0 self (Some 4))
  = Ok (IPv46, [x00; x00; x08; x00], 1700000000).
Proof.
  cbv zeta. split.
  - repeat split; try (vm_compute; discriminate).
    left. vm_compute. discriminate.
  - rewrite (recv_raw_unstripped false Sample.AF_INET Sample.AF_INET6
               BigEndian Sample.Ether_payload_guess
               Sample.library_guess_payload_class Sample.clock Sample.w0
               (Sample.bsd_tun Sample.device_input) (Some 4) eq_refl
               ltac:(vm_compute; discriminate)
               ltac:(left; vm_compute; discriminate)).
    reflexivity.
Defined.



Lemma sample_os_open_gives_open_files :
  forall path f, Sample.os_open path = Ok f -> file_closed f = false.
Proof. intros path f [= <-]. reflexivity. Defined.

Lemma sample_os_socket_gives_open_file :
  forall f, Sample.os_socket = Ok f -> file_closed f = false.
Proof. intros f [= <-]. reflexivity. Defined.

Lemma init_establishes_invariant_witness :
  exists w' obj,
    sample_init true false Sample.w0 (Some (bstr "tun0")) None 1500 true
    = (w', Ok obj) /\
    channel_invariant obj = true /\ closed obj = false /\
    file_closed (sock obj) = false /\ default_read_size obj = 1500.
Proof.
  eexists _, _. split; [reflexivity|].
  apply (init_establishes_invariant true false false (bstr "eth0")
           Sample.os_open Sample.os_ioctl Sample.os_socket Sample.os_connect
           Sample.w0 _ (Some (bstr "tun0")) None 1500 true _
           sample_os_open_gives_open_files sample_os_socket_gives_open_file
           eq_refl).
Defined.

Lemma recv_raw_keeps_channel_witness :
  let self := Sample.linux_tun Sample.device_input in
  channel_invariant self = true /\
  channel_invariant (snd (fst (sample_recv_raw Sample.w0 self None))) = true /\
  mtu_overhead (snd (fst (sample_recv_raw Sample.w0 self None))) = 4.
Proof.
  cbv zeta. split; [reflexivity|].
  destruct (recv_raw_keeps_channel false Sample.AF_INET Sample.AF_INET6
              BigEndian Sample.Ether_payload_guess
              Sample.library_guess_payload_class Sample.clock Sample.w0
              (Sample.linux_tun Sample.device_input) None)
    as (_ & _ & _ & Hov & _ & _ & _ & _ & Hinv).
  split; [exact (Hinv eq_refl)|exact Hov].
Defined.

Lemma init_overhead_witness :
  exists w' obj,
    sample_init false true Sample.w0 (Some (bstr "utun3")) None 1500 true
    = (w', Ok obj) /\
    mtu_overhead obj = 4.
Proof.
  eexists _, _. split; [reflexivity|].
  apply (init_overhead false true false (bstr "eth0") Sample.os_open
           Sample.os_ioctl Sample.os_socket Sample.os_connect Sample.w0 _
           (Some (bstr "utun3")) None 1500 true _ eq_refl).
Defined.

Lemma linux_short_name_kept_witness :
  let name := bstr "tun0" in
  (true = true /\
   resolve_mode (interface_name (bstr "eth0") (Some name)) None = Ok true /\
   len (interface_name (bstr "eth0") (Some name)) <= LINUX_IFNAMSIZ) /\
  exists w' obj,
    sample_init true false Sample.w0 (Some name) None 1500 true
    = (w', Ok obj) /\
    iface obj = name /\
    ~ In truncation_warning (warnings (events_since Sample.w0 w')).
Proof.
  cbv zeta. split.
  - repeat split. vm_compute. discriminate.
  - generalize (linux_short_name_kept true false false (bstr "eth0")
                  Sample.os_open Sample.os_ioctl Sample.os_socket
                  Sample.os_connect Sample.w0 (Some (bstr "tun0")) None 1500
                  true true eq_refl eq_refl
                  ltac:(vm_compute; discriminate)).
    cbv zeta.
    destruct (sample_init true false Sample.w0 (Some (bstr "tun0")) None 1500
                true) as [w' res] eqn:E.
    vm_compute in E. injection E as <- <-.
    intros (Hwarn & _ & Hobj).
    eexists _, _. split; [reflexivity|].
    split; [exact (Hobj _ eq_refl)|exact Hwarn].
Defined.

Lemma linux_open_failure_is_fatal_witness :
  (true = true /\
   resolve_mode (interface_name (bstr "eth0") (Some (bstr "tun0"))) None
   = Ok true /\
   Sample.os_open_denied (bstr "/dev/net/tun") = Raise (OSError 13)) /\
  snd (__init__ true false false (bstr "eth0") Sample.os_open_denied
         Sample.os_ioctl Sample.os_socket Sample.os_connect Sample.w0
         (Some (bstr "tun0")) None 1500 true)
  = Raise (OSError 13).
Proof.
  split; [repeat split|].
  generalize (linux_open_failure_is_fatal true false false (bstr "eth0")
                Sample.os_open_denied Sample.os_ioctl Sample.os_socket
                Sample.os_connect Sample.w0 (Some (bstr "tun0")) None 1500
                true true (OSError 13) eq_refl eq_refl
                (or_introl eq_refl)).
  destruct (__init__ true false false (bstr "eth0") Sample.os_open_denied
              Sample.os_ioctl Sample.os_socket Sample.os_connect Sample.w0
              (Some (bstr "tun0")) None 1500 true) as [w' res].
  intros [Hres _]. exact Hres.
Defined.

Lemma init_linux_succeeds_witness :
  (true = true /\
   resolve_mode (interface_name (bstr "eth0") (Some (bstr "eth1")))
     (Some true) = Ok true /\
   Sample.os_open (bstr "/dev/net/tun") = Ok (mkFile false Sample.device_input))
  /\
  exists w' obj,
    sample_init true false Sample.w0 (Some (bstr "eth1")) (Some true) 1500
      true = (w', Ok obj) /\
    sock obj = mkFile false Sample.device_input /\ closed obj = false /\
    default_read_size obj = 1500.
Proof.
  split; [repeat split|].
  apply (init_linux_succeeds true false false (bstr "eth0") Sample.os_open
           Sample.os_ioctl Sample.os_socket Sample.os_connect Sample.w0
           (Some (bstr "eth1")) (Some true) 1500 true true
           (mkFile false Sample.device_input) _ eq_refl eq_refl eq_refl
           eq_refl).
Defined.

Lemma bsd_name_check_witness :
  let name := interface_name (bstr "eth0") (Some (bstr "eth1")) in
  (false = false /\ true = true /\
   startswith name (bstr "tap") = false /\
   startswith name (bstr "tun") = false /\
   startswith name (bstr "utun") = false) /\
  sample_init false true Sample.w0 (Some (bstr "eth1")) (Some true) 1500 true
  = (Sample.w0, Raise InvalidNameError).
Proof.
  cbv zeta. split; [repeat split|].
  apply (bsd_name_check false true false (bstr "eth0") Sample.os_open
           Sample.os_ioctl Sample.os_socket Sample.os_connect Sample.w0
           (Some (bstr "eth1")) true 1500 true eq_refl eq_refl eq_refl eq_refl
           eq_refl).
Defined.

Lemma bsd_device_file_witness :
  let name := interface_name (bstr "eth0") (Some (bstr "tap0")) in
  (false = false /\ true = true /\ resolve_mode name None = Ok false /\
   startswith name (bstr "utun") = false /\
   startswith name (bstr "tap") = true) /\
  sample_init false true Sample.w0 (Some (bstr "tap0")) None 1500 true
  = (mkWorld [EvOpen (bstr "/dev/tap0")] 0,
     Ok (mkTunTapInterface (bstr "tap0") false true 0 Ether false 1500
           (mkFile false Sample.device_input))).
Proof.
  cbv zeta. split; [repeat split|].
  apply (bsd_device_file false true false (bstr "eth0") Sample.os_open
           Sample.os_ioctl Sample.os_socket Sample.os_connect Sample.w0
           (Some (bstr "tap0")) None 1500 true false eq_refl eq_refl eq_refl
           eq_refl (or_introl eq_refl)).
Defined.

Lemma bsd_utun_handshake_witness :
  let name := interface_name (bstr "eth0") (Some (bstr "utun3")) in
  (false = false /\ true = true /\ resolve_mode name None = Ok true /\
   startswith name (bstr "utun") = true /\ utf8_valid name = true /\
   re_match_number name = Some 3 /\
   Sample.os_socket = Ok (mkFile false Sample.device_input) /\
   Sample.os_ioctl DARWIN_CTLIOCGINFO MacOSTunIfReq_build
   = Ok MacOSTunIfReq_build /\
   Sample.os_connect (MacOSTunIfReq_ctl_id MacOSTunIfReq_build) (3 + 1)
   = Ok tt) /\
  sample_init false true Sample.w0 (Some (bstr "utun3")) None 1500 true
  = (mkWorld [EvSocket; EvIoctl DARWIN_CTLIOCGINFO MacOSTunIfReq_build;
              EvConnect 0 4; EvMakefile] 0,
     Ok (mkTunTapInterface (bstr "utun3") true true 4 MacOSUtunPacketInfo
           false 1500 (mkFile false Sample.device_input))).
Proof.
  cbv zeta. split; [repeat split|].
  apply (bsd_utun_handshake false true false (bstr "eth0") Sample.os_open
           Sample.os_ioctl Sample.os_socket Sample.os_connect Sample.w0
           (Some (bstr "utun3")) None 1500 true true 3
           (mkFile false Sample.device_input) MacOSTunIfReq_build eq_refl
           eq_refl eq_refl eq_refl eq_refl eq_refl eq_refl eq_refl eq_refl).
Defined.

Lemma bsd_utun_without_number_witness :
  let name := interface_name (bstr "eth0") (Some (bstr "utun")) in
  (false = false /\ true = true /\ resolve_mode name None = Ok true /\
   startswith name (bstr "utun") = true /\ utf8_valid name = true /\
   re_match_number name = None /\
   Sample.os_socket = Ok (mkFile false Sample.device_input) /\
   Sample.os_ioctl DARWIN_CTLIOCGINFO MacOSTunIfReq_build
   = Ok MacOSTunIfReq_build) /\
  sample_init false true Sample.w0 (Some (bstr "utun")) None 1500 true
  = (mkWorld [EvSocket; EvIoctl DARWIN_CTLIOCGINFO MacOSTunIfReq_build] 0,
     Raise (UnboundLocalError "interfaceNum")).
Proof.
  cbv zeta. split; [repeat split|].
  apply (bsd_utun_without_number false true false (bstr "eth0")
           Sample.os_open Sample.os_ioctl Sample.os_socket Sample.os_connect
           Sample.w0 (Some (bstr "utun")) None 1500 true true
           (mkFile false Sample.device_input) MacOSTunIfReq_build eq_refl
           eq_refl eq_refl eq_refl eq_refl eq_refl eq_refl eq_refl).
Defined.

Lemma unsupported_platform_witness :
  (false = false /\ false = false) /\
  sample_init false false Sample.w0 (Some (bstr "tun0")) None 1500 true
  = (Sample.w0, Raise UnsupportedPlatformError).
Proof.
  split; [split; reflexivity|].
  apply (proj1 (unsupported_platform false false false (bstr "eth0")
                  Sample.os_open Sample.os_ioctl Sample.os_socket
                  Sample.os_connect Sample.w0 (Some (bstr "tun0")) None 1500
                  true eq_refl eq_refl)).
Defined.

Lemma utun_number_parsed_witness :
  (bstr "42" <> [] /\ forallb is_digit (bstr "42") = true /\
   take_digits (bstr ".1") = []) /\
  re_match_number (bstr "utun42.1") = Some 42.
Proof.
  split; [repeat split; discriminate|].
  apply (proj1 (utun_number_parsed (bstr "42") (bstr ".1")
                  ltac:(discriminate) eq_refl eq_refl)).
Defined.

Lemma ctl_id_roundtrip_witness :
  0 <= 7 < 2 ^ 32 /\
  MacOSTunIfReq_ctl_id
    ([x07; x00; x00; x00]
     ++ StrFixedLenField_build DARWIN_MAX_KCTL_NAME DARWIN_UTUN_CONTROL_NAME)
  = 7.
Proof.
  split; [split; [discriminate|reflexivity]|].
  apply (proj1 (ctl_id_roundtrip 7
                  (StrFixedLenField_build DARWIN_MAX_KCTL_NAME
                     DARWIN_UTUN_CONTROL_NAME)
                  ltac:(split; [discriminate|reflexivity]))).
Defined.

Lemma utun_header_roundtrip_witness :
  let h := mk_utun_pi 30 in
  let self := Sample.utun [x00; x00; x00; x1e; x60; x00] in
  (0 <= addr_family h < 2 ^ 32 /\
   kernel_packet_class self = MacOSUtunPacketInfo /\ mtu_overhead self = 4 /\
   strip_packet_info self = true /\ file_closed (sock self) = false) /\
  MacOSUtunPacketInfo_build BigEndian h = Ok [x00; x00; x00; x1e] /\
  snd (sample_recv_raw Sample.w0 self (Some 2))
  = Ok (IPv6, [x60; x00], 1700000000).
Proof.
  cbv zeta. split.
  - repeat split. discriminate.
  - destruct (utun_header_roundtrip false Sample.AF_INET Sample.AF_INET6
                BigEndian Sample.Ether_payload_guess
                Sample.library_guess_payload_class Sample.clock Sample.w0
                (Sample.utun [x00; x00; x00; x1e; x60; x00]) (mk_utun_pi 30)
                [x60; x00] []
                ltac:(split; [discriminate|reflexivity])
                eq_refl eq_refl eq_refl eq_refl)
      as (hdr & Hbuild & _ & _ & Hrecv).
    split; [reflexivity|].
    assert (Hhdr : hdr = [x00; x00; x00; x1e])
      by (vm_compute in Hbuild; injection Hbuild as <-; reflexivity).
    subst hdr. exact (Hrecv eq_refl).
Defined.

Lemma LinuxTunIfReq_roundtrip_witness :
  0 <= 1 < 65536 /\
  exists req,
    LinuxTunIfReq_build false (bstr "tun0") 1 = Ok req /\
    len req = 18 /\
    LinuxTunIfReq_flags false req = 1.
Proof.
  split; [split; [discriminate|reflexivity]|].
  destruct (LinuxTunIfReq_roundtrip false (bstr "tun0") 1
              ltac:(split; [discriminate|reflexivity]))
    as (req & Hbuild & Hlen & Hflags & _).
  exists req. split; [exact Hbuild|]. split; [exact Hlen|exact Hflags].
Defined.

Lemma send_without_sent_time_witness :
  hasattr_sent_time Sample.bare_bytes = false /\
  sample_send Sample.os_write Sample.w0 (Sample.linux_tun []) Sample.bare_bytes
  = (mkWorld [EvWrite [x00; x00; x90; x00; x68; x69]; EvFlush] 0,
     Sample.bare_bytes, Ok (Some 6)).
Proof.
  split; [reflexivity|].
  generalize (send_without_sent_time Sample.raw Sample.div Sample.clock
                Sample.os_write Sample.w0 (Sample.linux_tun [])
                Sample.bare_bytes eq_refl).
  destruct (sample_send Sample.os_write Sample.w0 (Sample.linux_tun [])
              Sample.bare_bytes) as [[w' x'] res].
  intros (-> & _ & Hwrite). vm_compute in Hwrite.
  injection Hwrite as -> ->. reflexivity.
Defined.

Lemma send_raises_other_errors_witness :
  let self := Sample.linux_tun [] in
  let e := ValueError "write to closed file" [] in
  (file_closed (sock self) = false /\ is_socket_error e = false) /\
  snd (sample_send Sample.os_write_refusing Sample.w0 self Sample.ip_packet)
  = Raise e /\
  events_since Sample.w0
    (fst (fst (sample_send Sample.os_write_refusing Sample.w0 self
                 Sample.ip_packet)))
  = [EvWrite [x00; x00; x90; x00; x45; x00; x00; x14]].
Proof.
  cbv zeta. split; [split; reflexivity|].
  generalize (send_raises_other_errors Sample.raw Sample.div Sample.clock
                Sample.os_write_refusing Sample.w0 (Sample.linux_tun [])
                Sample.ip_packet (ValueError "write to closed file" [])
                eq_refl eq_refl eq_refl).
  cbv zeta.
  destruct (sample_send Sample.os_write_refusing Sample.w0
              (Sample.linux_tun []) Sample.ip_packet) as [[w' x'] res].
  intros H. exact H.
Defined.

Lemma linux_channel_recv_unstripped_witness :
  exists w' obj,
    sample_init true false Sample.w0 (Some (bstr "tap3")) None 1500 false
    = (w', Ok obj) /\
    file_closed (sock obj) = false /\
    0 <= requested_size obj (Some 6) /\
    mode_tun obj = false /\
    snd (sample_recv_raw w' obj (Some 6))
    = Ok (Ether, [x00; x00; x08; x00; x45; x00], 1700000000).
Proof.
  eexists _, _. split; [reflexivity|].
  split; [reflexivity|]. split; [vm_compute; discriminate|].
  split; [reflexivity|].
  rewrite (linux_channel_recv_unstripped true false false Sample.AF_INET
             Sample.AF_INET6 (bstr "eth0") BigEndian
             Sample.Ether_payload_guess Sample.library_guess_payload_class
             Sample.clock Sample.os_open Sample.os_ioctl Sample.os_socket
             Sample.os_connect Sample.w0 _ _ (Some (bstr "tap3")) None 1500
             false _ (Some 6) eq_refl eq_refl eq_refl
             ltac:(vm_compute; discriminate) (or_introl eq_refl)).
  reflexivity.
Defined.

